(** * Dual camera viewer (main.py): capture workers, capture controller,
      configuration loaders.

    A shallow embedding of [VideoThread] and of the [CameraApp] methods
    [__init__], [capture_images], [closeEvent], [update_left],
    [update_right], [load_material_types] and [load_camera_config], with
    the properties of the specification proved about them.

    Conventions of the embedding:
    - Python strings are [string]; an f-string is the concatenation of its
      pieces, in order.
    - What lies outside the program is a parameter: the files that can be
      opened and the JSON decoder, what [os.makedirs] and [cv2.imwrite]
      answer, whether [cv2.VideoCapture] accepts a source.  A property
      holds for every such outside unless it says otherwise.
    - [capture_images] records each call it makes to the outside with the
      answer it got.  [os.makedirs] and [cv2.imwrite] may raise, and the
      exception leaves [capture_images]; [cv2.imwrite] returns a boolean,
      which the program drops: a file is written when the call returns
      [True], and only then does the disk change.
    - The thread of a worker moves in steps, one for each point where it
      meets the rest of the program: the construction of the capture, the
      test of the flag, the return of [cap.read()] with the assignment of
      [raw_frame], the emission of the image.  A read that has not
      returned is no step.  [cv2.VideoCapture] may raise, and the
      exception leaves [run].
    - The two [datetime.now()] calls of [capture_images] are two clock
      readings, passed in the order the program takes them. *)

From stdpp Require Import base strings list gmap.
From Stdlib Require Import Ascii ZArith Lia.

#[local] Set Warnings "-register-all".

(* ===================================================================== *)
(** ** Python strings *)
(* ===================================================================== *)

Module PyStr.

(** The line feed of the Python literal ["\n"]. *)
Definition LF : ascii := ascii_of_nat 10.
Definition nl : string := String LF "".

(** [sep.join(parts)]. *)
Fixpoint join (sep : string) (parts : list string) : string :=
  match parts with
  | [] => ""
  | [p] => p
  | p :: rest => p +:+ sep +:+ join sep rest
  end.

(** The decimal digit of [n mod 10]. *)
Definition digit (n : N) : ascii := ascii_of_N (48 + n mod 10)%N.

(** [n] as two, respectively four, zero-padded decimal digits: what
    [%d], [%m], [%H], [%M], [%S] print for a field below 100 and what
    [%Y] prints for a year below 10000. *)
Definition d2 (n : N) : string :=
  String (digit (n / 10)%N) (String (digit n) "").
Definition d4 (n : N) : string :=
  String (digit (n / 1000)%N) (String (digit (n / 100)%N)
    (String (digit (n / 10)%N) (String (digit n) ""))).

(** The number a string of decimal digits denotes. *)
Definition digit_value (c : ascii) : N := (N_of_ascii c - 48)%N.

Fixpoint decimal_value_from (acc : N) (s : string) : N :=
  match s with
  | EmptyString => acc
  | String c rest => decimal_value_from (10 * acc + digit_value c)%N rest
  end.

Definition decimal_value (s : string) : N := decimal_value_from 0 s.

(** Whether the separator [/] occurs in [s]. *)
Fixpoint has_slash (s : string) : bool :=
  match s with
  | EmptyString => false
  | String c rest => Ascii.eqb c "/" || has_slash rest
  end.

(** The directory part of a relative path: the text before its last
    separator, as written. *)
Fixpoint dirname (p : string) : string :=
  match p with
  | EmptyString => EmptyString
  | String c rest => if has_slash rest then String c (dirname rest) else EmptyString
  end.

End PyStr.

(* ===================================================================== *)
(** ** datetime *)
(* ===================================================================== *)

(** The fields of a [datetime] that the program formats.  Python keeps
    [1 <= year <= 9999] (MINYEAR, MAXYEAR), [1 <= month <= 12],
    [1 <= day <= 31], [hour < 24], [minute < 60], [second < 60]. *)
Record datetime := {
  year : N; month : N; day : N;
  hour : N; minute : N; second : N
}.

Definition valid_datetime (dt : datetime) : bool :=
  ((1 <=? year dt) && (year dt <=? 9999) &&
   (1 <=? month dt) && (month dt <=? 12) &&
   (1 <=? day dt) && (day dt <=? 31) &&
   (hour dt <? 24) && (minute dt <? 60) && (second dt <? 60))%N.

(** One [%x] directive of [strftime]. *)
Definition directive (c : ascii) (dt : datetime) : string :=
  if Ascii.eqb c "Y" then PyStr.d4 (year dt)
  else if Ascii.eqb c "m" then PyStr.d2 (month dt)
  else if Ascii.eqb c "d" then PyStr.d2 (day dt)
  else if Ascii.eqb c "H" then PyStr.d2 (hour dt)
  else if Ascii.eqb c "M" then PyStr.d2 (minute dt)
  else if Ascii.eqb c "S" then PyStr.d2 (second dt)
  else if Ascii.eqb c "%" then "%"
  else String "%" (String c "").

(** [dt.strftime(fmt)] for the directives above; every other character is
    copied. *)
Fixpoint strftime (fmt : string) (dt : datetime) : string :=
  match fmt with
  | EmptyString => EmptyString
  | String c rest =>
      if Ascii.eqb c "%" then
        match rest with
        | EmptyString => "%"
        | String d rest' => directive d dt +:+ strftime rest' dt
        end
      else String c (strftime rest dt)
  end.

(* ===================================================================== *)
(** ** Python values, exceptions and the interpreter state *)
(* ===================================================================== *)

(** What [json.load] can return, and so what the configuration holds. *)
Inductive pyval :=
| PNone
| PBool (b : bool)
| PInt (z : Z)
| PFloat (literal : string)
| PStr (s : string)
| PList (items : list pyval)
| PDict (items : list (string * pyval)).

(** [type(v).__name__]. *)
Definition type_name (v : pyval) : string :=
  match v with
  | PNone => "NoneType" | PBool _ => "bool" | PInt _ => "int"
  | PFloat _ => "float" | PStr _ => "str" | PList _ => "list"
  | PDict _ => "dict"
  end.

(** The exceptions the modelled calls raise; every class here derives
    from [Exception].  [exc_msg] is [str(e)]. *)
Inductive exc_class :=
| FileNotFoundError | PermissionError | IsADirectoryError | OSError
| UnicodeDecodeError | JSONDecodeError | RecursionError
| AttributeError | TypeError | Cv2Error.

Record exception := { exc_type : exc_class; exc_msg : string }.

Inductive outcome (A : Type) :=
| Return (a : A)
| Raise (e : exception).
Arguments Return {A} a.
Arguments Raise {A} e.

(** A Python computation: it reads and extends the lines printed so far
    and either returns or raises. *)
Definition Py (A : Type) : Type := list string -> outcome A * list string.

Definition ret {A} (a : A) : Py A := fun out => (Return a, out).

Definition raise {A} (e : exception) : Py A := fun out => (Raise e, out).

Definition bind {A B} (m : Py A) (k : A -> Py B) : Py B :=
  fun out =>
    match m out with
    | (Return a, out') => k a out'
    | (Raise e, out') => (Raise e, out')
    end.

Definition lift {A} (o : outcome A) : Py A := fun out => (o, out).

(** [print(line)]. *)
Definition print (line : string) : Py unit := fun out => (Return tt, out ++ [line]).

(** [try: body  except Exception as e: handler(e)]. *)
Definition try_except {A} (body : Py A) (handler : exception -> Py A) : Py A :=
  fun out =>
    match body out with
    | (Raise e, out') => handler e out'
    | r => r
    end.

Declare Scope py_scope.
Delimit Scope py_scope with py.
Notation "x <- m ;; k" := (bind m (fun x => k))
  (at level 100, m at next level, right associativity) : py_scope.

(** The item of a dict stored under [key]. *)
Fixpoint dict_lookup (key : string) (items : list (string * pyval)) : option pyval :=
  match items with
  | [] => None
  | (k, v) :: rest => if String.eqb k key then Some v else dict_lookup key rest
  end.

(** [obj.get(key, default)]: a dict method; any other value has no
    attribute [get]. *)
Definition py_get (obj : pyval) (key : string) (dflt : pyval) : Py pyval :=
  match obj with
  | PDict items =>
      match dict_lookup key items with
      | Some v => ret v
      | None => ret dflt
      end
  | _ => raise {| exc_type := AttributeError;
                  exc_msg := "'" +:+ type_name obj +:+ "' object has no attribute 'get'" |}
  end.

(* ===================================================================== *)
(** ** Frames and images *)
(* ===================================================================== *)

(** A decoded frame as [VideoCapture.read] delivers it: rows of
    three-channel pixels, channel values in capture order (B, G, R). *)
Definition pixel : Type := N * N * N.
Definition Frame : Type := list (list pixel).

(** [frame.copy()]. *)
Definition ndarray_copy (frame : Frame) : Frame := frame.

(** [cv2.cvtColor(frame, cv2.COLOR_BGR2RGB)]: the first and third channel
    change places. *)
Definition cvtColor_BGR2RGB (frame : Frame) : Frame :=
  map (map (fun px : pixel => let '(b, g, r) := px in (r, g, b))) frame.

(** [image.shape]: (rows, columns, channels). *)
Definition shape (image : Frame) : nat * nat * nat :=
  (length image, length (hd [] image), 3).

(** [image.data]: the channel values row by row. *)
Definition ndarray_data (image : Frame) : list N :=
  concat (map (fun row => concat (map (fun px : pixel => let '(x, y, z) := px in [x; y; z]) row)) image).

(** The formats of [QImage.Format] the program could name. *)
Inductive QImageFormat :=
| Format_Invalid | Format_RGB32 | Format_ARGB32 | Format_RGB888 | Format_BGR888.

Record QImage := {
  img_data : list N; img_width : nat; img_height : nat;
  img_bytes_per_line : nat; img_format : QImageFormat
}.


(** The [QImage] that [run] builds from [frame] (lines 29 to 33). *)
Definition to_qimage (frame : Frame) : QImage :=
  let rgb_image := cvtColor_BGR2RGB frame in
  let '(h, w, ch) := shape rgb_image in
  let bytes_per_line := ch * w in
  {| img_data := ndarray_data rgb_image; img_width := w; img_height := h;
     img_bytes_per_line := bytes_per_line; img_format := Format_RGB888 |}.

(** A frame whose rows all have the length of the first. *)
Definition rectangular (frame : Frame) : Prop :=
  Forall (fun row => length row = length (hd [] frame)) frame.

(* ===================================================================== *)
(** ** VideoThread: the capture worker *)
(* ===================================================================== *)

(** Where the worker's thread stands in [run]. *)
Inductive position :=
| Created                    (** constructed, [start()] not called yet *)
| Started                    (** [start()] called, [run] not entered yet *)
| AtHead                     (** at the test of [while self.running] *)
| Reading                    (** inside [cap.read()] *)
| Emitting (frame : Frame)   (** [raw_frame] assigned (line 28), the image
                                 of [frame] not emitted yet (line 34) *)
| Finished                   (** [run] has returned *)
| Raised (e : exception).    (** [run] was left by the exception [e] *)

(** The local [cap] of [run]: none yet, the object [cv2.VideoCapture]
    returned for a source (whether or not a device opened behind it), or
    that object after [release()]. *)
Inductive capture := NoCapture | Constructed (source : pyval) | Released.

(** A [VideoThread] object together with the state of its thread: the
    attributes [url], [running] and [raw_frame], the position of the thread,
    its [cap], and the images emitted on [frame_received] so far. *)
Record VideoThread := {
  url : pyval;
  running : bool;
  raw_frame : option Frame;
  pos : position;
  cap : capture;
  emitted : list QImage
}.

(** [VideoThread(url)]: [raw_frame] is the class attribute [None] until
    [run] assigns the instance attribute. *)
Definition VideoThread_init (u : pyval) : VideoThread :=
  {| url := u; running := true; raw_frame := None;
     pos := Created; cap := NoCapture; emitted := [] |}.

Definition set_pos (p : position) (t : VideoThread) : VideoThread :=
  {| url := url t; running := running t; raw_frame := raw_frame t;
     pos := p; cap := cap t; emitted := emitted t |}.

Definition set_cap (c : capture) (t : VideoThread) : VideoThread :=
  {| url := url t; running := running t; raw_frame := raw_frame t;
     pos := pos t; cap := c; emitted := emitted t |}.

Definition set_running (b : bool) (t : VideoThread) : VideoThread :=
  {| url := url t; running := b; raw_frame := raw_frame t;
     pos := pos t; cap := cap t; emitted := emitted t |}.

(** [self.raw_frame = frame.copy()] (line 28). *)
Definition store (frame : Frame) (t : VideoThread) : VideoThread :=
  {| url := url t; running := running t; raw_frame := Some (ndarray_copy frame);
     pos := pos t; cap := cap t; emitted := emitted t |}.

(** [self.frame_received.emit(qt_image)] (line 34). *)
Definition emit_image (qt_image : QImage) (t : VideoThread) : VideoThread :=
  {| url := url t; running := running t; raw_frame := raw_frame t;
     pos := pos t; cap := cap t; emitted := emitted t ++ [qt_image] |}.

(** [QThread.start()]: it begins [run] on a thread that is not running
    (new, finished or left by an exception) and does nothing on one that
    is. *)
Definition start (t : VideoThread) : VideoThread :=
  match pos t with
  | Created | Finished | Raised _ => set_pos Started t
  | _ => t
  end.

(** [QThread.isRunning()]: started and not ended. *)
Definition isRunning (t : VideoThread) : bool :=
  match pos t with
  | Started | AtHead | Reading | Emitting _ => true
  | Created | Finished | Raised _ => false
  end.

(** The thread is at the test of the loop or inside a read. *)
Definition in_loop (t : VideoThread) : Prop := pos t = AtHead \/ pos t = Reading.

(** The thread is inside the [while] of [run]. *)
Definition in_run (t : VideoThread) : bool :=
  match pos t with
  | AtHead | Reading | Emitting _ => true
  | _ => false
  end.

(** The thread is inside a read or between the assignment of
    [raw_frame] and the emission. *)
Definition in_iteration (t : VideoThread) : bool :=
  match pos t with
  | Reading | Emitting _ => true
  | _ => false
  end.

(** [t'] differs from [t] at most in the position of the thread. *)
Definition same_but_pos (t t' : VideoThread) : Prop :=
  url t' = url t /\ running t' = running t /\ raw_frame t' = raw_frame t
  /\ cap t' = cap t /\ emitted t' = emitted t.

(** What a call that waits for a worker's thread comes to, for the
    caller: it has returned; or it has not, the thread still running; or
    the thread's [run] was left by an exception.  PyQt reports such an
    exception and, the program installing no except hook, ends the process
    by [qFatal]; the caller is not followed beyond that point. *)
Inductive waited (A : Type) :=
| Returned (a : A)
| Pending
| Died (e : exception).

Arguments Returned {A} a.
Arguments Pending {A}.
Arguments Died {A} e.

Section Worker.

(** [cv2.VideoCapture(url)]: the exception it raises for a source it
    does not take, [None] when it returns an object. *)
Variable VideoCapture : pyval -> option exception.

(** One step of the worker's thread in [VideoThread.run].  [r] is what
    [cap.read()] returns when the step is the return of a read:
    [Some frame] for [(True, frame)], [None] for [(False, None)]; the
    other steps do not look at it. *)
Definition run_step (r : option Frame) (t : VideoThread) : VideoThread :=
  match pos t with
  | Created => t
  | Started =>
      match VideoCapture (url t) with
      | None => set_pos AtHead (set_cap (Constructed (url t)) t)
      | Some e => set_pos (Raised e) t
      end
  | AtHead =>
      if running t then set_pos Reading t
      else set_pos Finished (set_cap Released t)
  | Reading =>
      match r with
      | Some frame => set_pos (Emitting frame) (store frame t)
      | None => set_pos AtHead t
      end
  | Emitting frame => set_pos AtHead (emit_image (to_qimage frame) t)
  | Finished => t
  | Raised _ => t
  end.

(** [QThread.wait()], called with no timeout: the caller blocks while the
    worker's thread runs, and returns at once for a thread that has
    returned from [run] or was never started.  [reads] are the results of
    the reads that return from now on, in order; a thread inside a read
    when they are used up stays there, and the wait does not return.
    [fuel] bounds the steps of the thread waited for.  For a thread whose
    [run] is left by an exception the result is [Died]. *)
Fixpoint wait (fuel : nat) (reads : list (option Frame)) (t : VideoThread)
  : waited VideoThread :=
  match pos t with
  | Created | Finished => Returned t
  | Raised e => Died e
  | Reading =>
      match fuel, reads with
      | S fuel', r :: rest => wait fuel' rest (run_step r t)
      | _, _ => Pending
      end
  | Started | AtHead | Emitting _ =>
      match fuel with
      | S fuel' => wait fuel' reads (run_step None t)
      | O => Pending
      end
  end.

(** [VideoThread.stop()]. *)
Definition stop (fuel : nat) (reads : list (option Frame)) (t : VideoThread)
  : waited VideoThread :=
  wait fuel reads (set_running false t).

(** What can happen to a worker, in any order: [start()] is called, its
    thread takes a step (the return of a read with its result, when it is
    inside one), [stop()] writes the flag. *)
Inductive event :=
| EvStart
| EvStep (r : option Frame)
| EvStopFlag.

Definition apply_event (t : VideoThread) (e : event) : VideoThread :=
  match e with
  | EvStart => start t
  | EvStep r => run_step r t
  | EvStopFlag => set_running false t
  end.

Definition run_events (evs : list event) (t : VideoThread) : VideoThread :=
  fold_left apply_event evs t.

(** The frames that complete a read in [evs]. *)
Fixpoint frames_read (evs : list event) : list Frame :=
  match evs with
  | [] => []
  | EvStep (Some f) :: rest => f :: frames_read rest
  | _ :: rest => frames_read rest
  end.

(** What holds of a worker at every moment of its life: where its thread
    stands fixes the state of [cap]; the loop is left only with the flag
    off; between the assignment of [raw_frame] and the emission the frame
    held is the frame in hand, and outside it the last image emitted is
    the image of the frame held. *)
Definition consistent (t : VideoThread) : Prop :=
  match pos t with
  | Created => cap t = NoCapture /\ raw_frame t = None
  | Started => cap t = NoCapture \/ cap t = Released
  | AtHead | Reading | Emitting _ =>
      cap t = Constructed (url t) /\ VideoCapture (url t) = None
  | Finished => cap t = Released /\ running t = false
  | Raised e => VideoCapture (url t) = Some e
                /\ (cap t = NoCapture \/ cap t = Released)
  end
  /\ match pos t with
     | Emitting frame => raw_frame t = Some frame
     | _ => last (emitted t) = to_qimage <$> raw_frame t
     end.

End Worker.
(* ===================================================================== *)
(** ** Configuration loaders and the start of the application *)
(* ===================================================================== *)

(** What lies outside the program when it starts: the files that can be
    opened, the JSON decoder, and Qt's conversion of the argument of
    [QComboBox.addItems] to a list of strings. *)
Record Host := {
  open_read : string -> outcome string;      (** [open(filepath, "r")] and its text *)
  json_load : string -> outcome pyval;       (** [json.load(file)] *)
  to_string_list : pyval -> outcome (list string)
}.

(** A [QComboBox]: its items and the index of the current one. *)
Record QComboBox := { items : list string; currentIndex : nat }.

(** [dropdown.currentText()]: the current item, the empty string when
    there is none. *)
Definition currentText (box : QComboBox) : string :=
  nth (currentIndex box) (items box) "".

Record CameraApp := {
  material_types : pyval;
  cameras_config : pyval;
  dropdown : QComboBox;
  left_thread : VideoThread;
  right_thread : VideoThread
}.

Section Startup.

Variable host : Host.

Local Open Scope py_scope.

(** What the two [try] bodies do when the file opens and decodes. *)
Definition read_json (filepath : string) : outcome pyval :=
  match open_read host filepath with
  | Return file => json_load host file
  | Raise e => Raise e
  end.

Definition load_material_types (filepath : string) : Py pyval :=
  try_except
    (file <- lift (open_read host filepath) ;;
     data <- lift (json_load host file) ;;
     py_get data "materials" (PList []))
    (fun e =>
       _ <- print ("Error loading material types: " +:+ exc_msg e) ;;
       ret (PList [PStr "unknown"])).

Definition load_camera_config (filepath : string) : Py pyval :=
  try_except
    (file <- lift (open_read host filepath) ;;
     data <- lift (json_load host file) ;;
     ret data)
    (fun e =>
       _ <- print ("Error loading camera config: " +:+ exc_msg e) ;;
       ret (PDict [])).

(** [CameraApp.__init__], without the construction and styling of the
    widgets: the two loads, the filling of the dropdown, the two [get]
    calls on the camera configuration, and the two workers, started. *)
Definition CameraApp_init : Py CameraApp :=
  material_types <- load_material_types "config/materials.json" ;;
  cameras_config <- load_camera_config "config/cameras.json" ;;
  texts <- lift (to_string_list host material_types) ;;
  left_url <- py_get cameras_config "left" (PStr "") ;;
  right_url <- py_get cameras_config "right" (PStr "") ;;
  ret {| material_types := material_types;
         cameras_config := cameras_config;
         dropdown := {| items := texts; currentIndex := 0 |};
         left_thread := start (VideoThread_init left_url);
         right_thread := start (VideoThread_init right_url) |}.

End Startup.


(* ===================================================================== *)
(** ** capture_images: the capture controller *)
(* ===================================================================== *)

Inductive Icon := NoIcon | Information | Warning | Critical | Question.

(** The message box shown: icon, window title and text (the style sheet
    only colours it). *)
Record QMessageBox := { icon : Icon; windowTitle : string; text : string }.

(** What the file system answers to [capture_images]. *)
Record Files := {
  (** [os.makedirs(path, exist_ok=True)]: the exception it raises, [None]
      when it returns *)
  makedirs : string -> option exception;
  (** [cv2.imwrite(path, img)]: [True] when the file was written, [False]
      when it was not, or the exception the call raises *)
  imwrite : string -> Frame -> outcome bool
}.

(** The calls [capture_images] makes to the outside, each with the answer
    it got. *)
Inductive effect :=
| Makedirs (path : string) (raised : option exception)
| Imwrite (path : string) (img : Frame) (answer : outcome bool)
| Exec (box : QMessageBox).                (** [msg.exec()] *)

(** A computation that adds to the calls made so far and returns or
    raises. *)
Definition IO (A : Type) : Type := list effect -> outcome A * list effect.

Definition io_ret {A} (a : A) : IO A := fun tr => (Return a, tr).

Definition io_bind {A B} (m : IO A) (k : A -> IO B) : IO B :=
  fun tr =>
    match m tr with
    | (Return a, tr') => k a tr'
    | (Raise e, tr') => (Raise e, tr')
    end.

Declare Scope io_scope.
Delimit Scope io_scope with io.
Notation "x <- m ;; k" := (io_bind m (fun x => k))
  (at level 100, m at next level, right associativity) : io_scope.

Inductive side := Left | Right.

Definition side_name (s : side) : string :=
  match s with Left => "left" | Right => "right" end.

Definition other_side (s : side) : side :=
  match s with Left => Right | Right => Left end.

Definition thread (self : CameraApp) (s : side) : VideoThread :=
  match s with Left => left_thread self | Right => right_thread self end.

(** The f-string [f"results/{folder_name}/{material}_<side>_{timestamp}.png"]. *)
Definition save_path (folder_name material : string) (s : side) (timestamp : string)
  : string :=
  "results/" +:+ folder_name +:+ "/" +:+ material +:+ "_" +:+ side_name s
    +:+ "_" +:+ timestamp +:+ ".png".

Definition success_box (saved_files : list string) : QMessageBox :=
  {| icon := Information;
     windowTitle := "✅ ถ่ายภาพสำเร็จ";
     text := "บันทึกภาพแล้ว:" +:+ PyStr.nl +:+ PyStr.nl
             +:+ PyStr.join PyStr.nl saved_files |}.

Definition warning_box : QMessageBox :=
  {| icon := Warning;
     windowTitle := "⚠️ ไม่พบภาพ";
     text := "ไม่สามารถบันทึกภาพได้ กรุณาตรวจสอบกล้อง" |}.

Section Capture.

Variable files : Files.

(** [os.makedirs(path, exist_ok=True)]. *)
Definition os_makedirs (path : string) : IO unit :=
  fun tr =>
    match makedirs files path with
    | None => (Return tt, tr ++ [Makedirs path None])
    | Some e => (Raise e, tr ++ [Makedirs path (Some e)])
    end.

(** [cv2.imwrite(path, img)]. *)
Definition cv2_imwrite (path : string) (img : Frame) : IO bool :=
  fun tr =>
    let answer := imwrite files path img in (answer, tr ++ [Imwrite path img answer]).

(** [msg.exec()]. *)
Definition msg_exec (box : QMessageBox) : IO unit :=
  fun tr => (Return tt, tr ++ [Exec box]).

(** [CameraApp.capture_images].  [now1] and [now2] are the results of the
    first and the second [datetime.now()]. *)
Definition capture_images (now1 now2 : datetime) (self : CameraApp) : IO unit :=
  (let timestamp := strftime "%Y%m%d_%H%M%S" now1 in
   let folder_name := strftime "%d_%m_%Y" now2 in
   let material := currentText (dropdown self) in
   _ <- os_makedirs ("results/" +:+ folder_name) ;;
   let saved_files := [] in
   saved_files <-
     match raw_frame (left_thread self) with
     | Some frame =>
         let left_path := save_path folder_name material Left timestamp in
         _ <- cv2_imwrite left_path frame ;;
         io_ret (saved_files ++ [left_path])
     | None => io_ret saved_files
     end ;;
   saved_files <-
     match raw_frame (right_thread self) with
     | Some frame =>
         let right_path := save_path folder_name material Right timestamp in
         _ <- cv2_imwrite right_path frame ;;
         io_ret (saved_files ++ [right_path])
     | None => io_ret saved_files
     end ;;
   match saved_files with
   | _ :: _ => msg_exec (success_box saved_files)
   | [] => msg_exec warning_box
   end)%io.

(** The calls of one capture action, in order, and how it ends. *)
Definition capture_trace (now1 now2 : datetime) (self : CameraApp) : list effect :=
  snd (capture_images now1 now2 self []).

Definition capture_outcome (now1 now2 : datetime) (self : CameraApp) : outcome unit :=
  fst (capture_images now1 now2 self []).

End Capture.

(** The [imwrite] calls of an action: path and frame of each. *)
Fixpoint issued (tr : list effect) : list (string * Frame) :=
  match tr with
  | [] => []
  | Imwrite p img _ :: rest => (p, img) :: issued rest
  | _ :: rest => issued rest
  end.

(** The files an action writes: path and content of each [imwrite] call
    that returned [True]. *)
Fixpoint written (tr : list effect) : list (string * Frame) :=
  match tr with
  | [] => []
  | Imwrite p img (Return true) :: rest => (p, img) :: written rest
  | _ :: rest => written rest
  end.

(** The message boxes an action shows. *)
Fixpoint shown (tr : list effect) : list QMessageBox :=
  match tr with
  | [] => []
  | Exec box :: rest => box :: shown rest
  | _ :: rest => shown rest
  end.

(** The directories an action asks for. *)
Fixpoint made (tr : list effect) : list string :=
  match tr with
  | [] => []
  | Makedirs p _ :: rest => p :: made rest
  | _ :: rest => made rest
  end.

(** The image files on disk after the calls [tr]: an [imwrite] that
    returned [True] has stored its frame under its path, replacing what
    was there; no other call changes a file. *)
Definition disk_after (tr : list effect) (disk : gmap string Frame) : gmap string Frame :=
  fold_left (fun d e => match e with
                       | Imwrite p img (Return true) => <[p := img]> d
                       | _ => d
                       end)
            tr disk.

(** The call for the left side does not raise. *)
Definition left_call_returns (files : Files) (now1 now2 : datetime) (self : CameraApp)
  : Prop :=
  forall l e, raw_frame (left_thread self) = Some l ->
    imwrite files (save_path (strftime "%d_%m_%Y" now2) (currentText (dropdown self)) Left
                     (strftime "%Y%m%d_%H%M%S" now1)) l <> Raise e.

(** The folder of an action depends on the day, month and year only. *)
Definition same_day (a b : datetime) : Prop :=
  year a = year b /\ month a = month b /\ day a = day b.

(* ===================================================================== *)
(** ** closeEvent *)
(* ===================================================================== *)

(** The close event, as far as the handler touches it. *)
Record QCloseEvent := { accepted : bool }.

(** [CameraApp.closeEvent]: stop the left worker, stop the right worker,
    accept the event.  While the caller waits for the left thread the
    right thread goes on: [meanwhile_right] are the steps it takes then.
    [Pending] when a wait does not return within [fuel] steps of the
    thread waited for. *)
Definition closeEvent (VideoCapture : pyval -> option exception) (fuel : nat)
    (reads_left meanwhile_right reads_right : list (option Frame))
    (self : CameraApp) (event : QCloseEvent) : waited (CameraApp * QCloseEvent) :=
  match stop VideoCapture fuel reads_left (left_thread self) with
  | Pending => Pending
  | Died e => Died e
  | Returned l =>
      let r := run_events VideoCapture (map EvStep meanwhile_right) (right_thread self) in
      match stop VideoCapture fuel reads_right r with
      | Pending => Pending
      | Died e => Died e
      | Returned r' =>
          Returned ({| material_types := material_types self;
                       cameras_config := cameras_config self;
                       dropdown := dropdown self;
                       left_thread := l; right_thread := r' |},
                    {| accepted := true |})
      end
  end.

(* ===================================================================== *)
(** ** The preview labels *)
(* ===================================================================== *)

Inductive AspectRatioMode :=
| IgnoreAspectRatio | KeepAspectRatio | KeepAspectRatioByExpanding.

Inductive TransformationMode := FastTransformation | SmoothTransformation.

(** [QPixmap.fromImage(image).scaled(size, aspect, transformation)]: the
    image, with the arguments of the scaling asked for. *)
Record QPixmap := {
  from_image : QImage;
  scaled_to : nat * nat;
  aspect_mode : AspectRatioMode;
  transformation : TransformationMode
}.

(** A preview [QLabel]: its fixed size and the pixmap it shows. *)
Record QLabel := { label_size : nat * nat; pixmap : option QPixmap }.

(** [CameraApp.create_preview_label] (frame, style sheet and alignment
    only draw it). *)
Definition create_preview_label : QLabel :=
  {| label_size := (480, 360); pixmap := None |}.

(** [label.setPixmap(QPixmap.fromImage(image).scaled(label.size(), ...))]. *)
Definition show_scaled (image : QImage) (label : QLabel) : QLabel :=
  {| label_size := label_size label;
     pixmap := Some {| from_image := image; scaled_to := label_size label;
                       aspect_mode := KeepAspectRatio;
                       transformation := SmoothTransformation |} |}.

(** The two labels of the window. *)
Record Previews := { left_label : QLabel; right_label : QLabel }.

Definition Previews_init : Previews :=
  {| left_label := create_preview_label; right_label := create_preview_label |}.

(** [CameraApp.update_left] and [CameraApp.update_right]. *)
Definition update_left (image : QImage) (ui : Previews) : Previews :=
  {| left_label := show_scaled image (left_label ui); right_label := right_label ui |}.

Definition update_right (image : QImage) (ui : Previews) : Previews :=
  {| left_label := left_label ui; right_label := show_scaled image (right_label ui) |}.

(** The slot connected to the [frame_received] of the worker of a side. *)
Definition slot (s : side) : QImage -> Previews -> Previews :=
  match s with Left => update_left | Right => update_right end.

Definition label_of (s : side) (ui : Previews) : QLabel :=
  match s with Left => left_label ui | Right => right_label ui end.

(** The window after the images [images], emitted by the worker of side
    [s], have reached their slot, in order. *)
Definition deliver (s : side) (images : list QImage) (ui : Previews) : Previews :=
  fold_left (fun u image => slot s image u) images ui.

(* ===================================================================== *)
(** ** Hosts and states to run the definitions on *)
(* ===================================================================== *)

(** A decoder for the few documents the examples read. *)
Definition json_load_small (file : string) : outcome pyval :=
  if String.eqb file "[]" then Return (PList [])
  else if String.eqb file "{}" then Return (PDict [])
  else if String.eqb file "null" then Return PNone
  else Raise {| exc_type := JSONDecodeError;
                exc_msg := "Expecting value: line 1 column 1 (char 0)" |}.

Fixpoint str_items (l : list pyval) : option (list string) :=
  match l with
  | [] => Some []
  | PStr s :: rest =>
      match str_items rest with Some ss => Some (s :: ss) | None => None end
  | _ => None
  end.

(** A conversion that takes a list of str and refuses everything else. *)
Definition strings_of_list (v : pyval) : outcome (list string) :=
  match v with
  | PList l =>
      match str_items l with
      | Some ss => Return ss
      | None => Raise {| exc_type := TypeError; exc_msg := "a list of str is expected" |}
      end
  | _ => Raise {| exc_type := TypeError; exc_msg := "a list of str is expected" |}
  end.

Fixpoint file_lookup (filepath : string) (files : list (string * string)) : option string :=
  match files with
  | [] => None
  | (name, content) :: rest =>
      if String.eqb name filepath then Some content else file_lookup filepath rest
  end.

(** The host whose readable files are [files], path and text of each. *)
Definition host_of_files (files : list (string * string)) : Host :=
  {| open_read := fun filepath =>
       match file_lookup filepath files with
       | Some content => Return content
       | None => Raise {| exc_type := FileNotFoundError;
                          exc_msg := "[Errno 2] No such file or directory: '"
                                     +:+ filepath +:+ "'" |}
       end;
     json_load := json_load_small;
     to_string_list := strings_of_list |}.

(** A file system where every call succeeds. *)
Definition all_fine : Files :=
  {| makedirs := fun _ => None; imwrite := fun _ _ => Return true |}.

(** A file system that refuses to make directories. *)
Definition no_permission : Files :=
  {| makedirs := fun path =>
       Some {| exc_type := PermissionError;
               exc_msg := "[Errno 13] Permission denied: '" +:+ path +:+ "'" |};
     imwrite := fun _ _ => Return true |}.

(** A file system that makes every directory asked for and writes a file
    exactly when the directory part of its path, as written, is one of
    [dirs]. *)
Definition disk_with (dirs : list string) : Files :=
  {| makedirs := fun _ => None;
     imwrite := fun path _ => Return (existsb (String.eqb (PyStr.dirname path)) dirs) |}.

(** A file system where [cv2.imwrite] takes no file name. *)
Definition no_filename : Files :=
  {| makedirs := fun _ => None;
     imwrite := fun _ _ =>
       Raise {| exc_type := Cv2Error;
                exc_msg := "Can't convert object to 'str' for 'filename'" |} |}.

(** A [cv2.VideoCapture] that takes a string or an integer and raises
    for every other source. *)
Definition takes_str_or_int (source : pyval) : option exception :=
  match source with
  | PStr _ | PInt _ => None
  | _ => Some {| exc_type := Cv2Error;
                 exc_msg := "Overload resolution failed: '" +:+ type_name source
                            +:+ "' is not a filename or an index" |}
  end.

(** A frame, application states and clock readings. *)
Definition sample_frame : Frame := [[(1%N, 2%N, 3%N); (4%N, 5%N, 6%N)]].

(** A worker inside a read that holds [f]. *)
Definition holding (f : option Frame) : VideoThread :=
  {| url := PStr "rtsp://cam"; running := true; raw_frame := f;
     pos := Reading; cap := Constructed (PStr "rtsp://cam");
     emitted := match f with Some frame => [to_qimage frame] | None => [] end |}.

(** A window with one label in its dropdown and the two workers given. *)
Definition window (material : string) (l r : VideoThread) : CameraApp :=
  {| material_types := PList [PStr material];
     cameras_config := PDict [("left", PStr "rtsp://cam"); ("right", PStr "rtsp://cam")];
     dropdown := {| items := [material]; currentIndex := 0 |};
     left_thread := l; right_thread := r |}.

Definition sample_app (material : string) (l r : option Frame) : CameraApp :=
  window material (holding l) (holding r).

Definition noon : datetime :=
  {| year := 2024; month := 3; day := 9; hour := 12; minute := 0; second := 7 |}.

Definition later : datetime :=
  {| year := 2024; month := 3; day := 9; hour := 12; minute := 0; second := 8 |}.

(* ===================================================================== *)
(** * Properties *)
(* ===================================================================== *)

(** ** Strings *)

#[local] Arguments String.append !_ _ / : simpl nomatch.

Lemma length_app (a b : string) :
  String.length (a +:+ b) = String.length a + String.length b.
Proof. induction a as [|c a IH]; simpl; [reflexivity | now rewrite IH]. Qed.

Lemma app_assoc_s (a b c : string) : (a +:+ b) +:+ c = a +:+ (b +:+ c).
Proof. induction a as [|x a IH]; simpl; [reflexivity | now rewrite IH]. Qed.

(** Two concatenations that agree, with tails of one length, agree on the
    tails. *)
Lemma app_same_tail (a b x y : string) :
  String.length x = String.length y -> a +:+ x = b +:+ y -> x = y.
Proof.
  revert b. induction a as [|c a IH]; intros [|d b] Hlen Heq; simpl in *.
  - assumption.
  - subst x. simpl in Hlen. rewrite length_app in Hlen. lia.
  - subst y. simpl in Hlen. rewrite length_app in Hlen. lia.
  - injection Heq as _ Heq. eauto.
Qed.

(** Two concatenations that agree, with heads of one length, agree on the
    heads. *)
Lemma app_same_head (a b x y : string) :
  String.length a = String.length b -> a +:+ x = b +:+ y -> a = b.
Proof.
  revert b. induction a as [|c a IH]; intros [|d b] Hlen Heq; simpl in *;
    try reflexivity; try discriminate Hlen.
  injection Heq as -> Heq. f_equal. apply IH; [lia | assumption].
Qed.

(** ** Digits *)

Lemma digit_value_digit (n : N) : PyStr.digit_value (PyStr.digit n) = (n mod 10)%N.
Proof.
  unfold PyStr.digit_value, PyStr.digit.
  pose proof (N.mod_upper_bound n 10) as Hlt.
  rewrite N_ascii_embedding; generalize dependent (n mod 10)%N; intros; lia.
Qed.

(** Quotient and remainder by ten, as linear facts. *)
Ltac by_ten x q r :=
  pose proof (N.Div0.div_mod x 10);
  pose proof (N.mod_upper_bound x 10 ltac:(discriminate));
  set (q := (x / 10)%N) in *; set (r := (x mod 10)%N) in *;
  clearbody r; clearbody q.

(** Below 100, respectively 10000, the digits printed denote the number. *)
Lemma d2_value (n : N) : (n < 100)%N -> PyStr.decimal_value (PyStr.d2 n) = n.
Proof.
  intros Hn. unfold PyStr.decimal_value, PyStr.d2. cbn [PyStr.decimal_value_from].
  rewrite !digit_value_digit.
  pose proof (N.Div0.div_mod (n / 10) 10).
  pose proof (N.mod_upper_bound (n / 10) 10 ltac:(discriminate)).
  set (r1 := ((n / 10) mod 10)%N) in *. set (q2 := (n / 10 / 10)%N) in *.
  clearbody r1 q2. by_ten n q1 r0. lia.
Qed.

Lemma d4_value (n : N) : (n < 10000)%N -> PyStr.decimal_value (PyStr.d4 n) = n.
Proof.
  intros Hn. unfold PyStr.decimal_value, PyStr.d4. cbn [PyStr.decimal_value_from].
  rewrite !digit_value_digit.
  replace (n / 100)%N with (n / 10 / 10)%N by (now rewrite N.Div0.div_div).
  replace (n / 1000)%N with (n / 10 / 10 / 10)%N by (now rewrite !N.Div0.div_div).
  pose proof (N.Div0.div_mod (n / 10 / 10 / 10) 10).
  pose proof (N.mod_upper_bound (n / 10 / 10 / 10) 10 ltac:(discriminate)).
  set (r3 := ((n / 10 / 10 / 10) mod 10)%N) in *.
  set (q4 := (n / 10 / 10 / 10 / 10)%N) in *. clearbody r3 q4.
  pose proof (N.Div0.div_mod (n / 10 / 10) 10).
  pose proof (N.mod_upper_bound (n / 10 / 10) 10 ltac:(discriminate)).
  set (r2 := ((n / 10 / 10) mod 10)%N) in *.
  set (q3 := (n / 10 / 10 / 10)%N) in *. clearbody r2 q3.
  pose proof (N.Div0.div_mod (n / 10) 10).
  pose proof (N.mod_upper_bound (n / 10) 10 ltac:(discriminate)).
  set (r1 := ((n / 10) mod 10)%N) in *. set (q2 := (n / 10 / 10)%N) in *.
  clearbody r1 q2. by_ten n q1 r0. lia.
Qed.

(** The fields of a valid [datetime] are printed in full. *)
Lemma valid_datetime_digits (dt : datetime) :
  valid_datetime dt = true ->
  PyStr.decimal_value (PyStr.d4 (year dt)) = year dt
  /\ PyStr.decimal_value (PyStr.d2 (month dt)) = month dt
  /\ PyStr.decimal_value (PyStr.d2 (day dt)) = day dt
  /\ PyStr.decimal_value (PyStr.d2 (hour dt)) = hour dt
  /\ PyStr.decimal_value (PyStr.d2 (minute dt)) = minute dt
  /\ PyStr.decimal_value (PyStr.d2 (second dt)) = second dt.
Proof.
  unfold valid_datetime. intros H.
  repeat (apply andb_prop in H as [H ?]).
  repeat match goal with
         | H : (_ <=? _)%N = true |- _ => apply N.leb_le in H
         | H : (_ <? _)%N = true |- _ => apply N.ltb_lt in H
         end.
  repeat split; first [apply d4_value | apply d2_value]; lia.
Qed.

(** ** The two formats of capture_images *)

Lemma strftime_timestamp (dt : datetime) :
  strftime "%Y%m%d_%H%M%S" dt =
  PyStr.d4 (year dt) +:+ PyStr.d2 (month dt) +:+ PyStr.d2 (day dt) +:+ "_"
    +:+ PyStr.d2 (hour dt) +:+ PyStr.d2 (minute dt) +:+ PyStr.d2 (second dt).
Proof. reflexivity. Qed.

Lemma strftime_folder (dt : datetime) :
  strftime "%d_%m_%Y" dt =
  PyStr.d2 (day dt) +:+ "_" +:+ PyStr.d2 (month dt) +:+ "_" +:+ PyStr.d4 (year dt).
Proof. reflexivity. Qed.

Lemma timestamp_length (dt : datetime) :
  String.length (strftime "%Y%m%d_%H%M%S" dt) = 15.
Proof. reflexivity. Qed.

Lemma folder_length (dt : datetime) :
  String.length (strftime "%d_%m_%Y" dt) = 10.
Proof. reflexivity. Qed.


(** ** Path separators *)

Lemma has_slash_app (a b : string) :
  PyStr.has_slash (a +:+ b) = PyStr.has_slash a || PyStr.has_slash b.
Proof.
  induction a as [|c a IH]; simpl; [reflexivity|]. rewrite IH. apply orb_assoc.
Qed.

(** A name without a separator, put after a directory, has that
    directory as its directory part. *)
Lemma dirname_app (dir name : string) :
  PyStr.has_slash name = false -> PyStr.dirname (dir +:+ "/" +:+ name) = dir.
Proof.
  intros Hname. change ("/" +:+ name) with (String "/" name).
  induction dir as [|c dir IH]; simpl.
  - now rewrite Hname.
  - rewrite has_slash_app. simpl. rewrite orb_true_r. now rewrite IH.
Qed.

Lemma digit_not_slash (n : N) : Ascii.eqb (PyStr.digit n) "/" = false.
Proof.
  unfold PyStr.digit. pose proof (N.mod_upper_bound n 10 ltac:(discriminate)) as Hlt.
  destruct (n mod 10)%N as [|k]; [reflexivity|].
  do 4 (destruct k as [k|k|]; try reflexivity; try lia).
Qed.

Lemma timestamp_no_slash (dt : datetime) :
  PyStr.has_slash (strftime "%Y%m%d_%H%M%S" dt) = false.
Proof.
  rewrite strftime_timestamp. unfold PyStr.d2, PyStr.d4. simpl.
  now rewrite !digit_not_slash.
Qed.

Lemma file_name_no_slash (material : string) (s : side) (dt : datetime) :
  PyStr.has_slash material = false ->
  PyStr.has_slash (material +:+ "_" +:+ side_name s +:+ "_"
                   +:+ strftime "%Y%m%d_%H%M%S" dt +:+ ".png") = false.
Proof.
  intros Hm. rewrite !has_slash_app, Hm, timestamp_no_slash. now destruct s.
Qed.

(** ** The calls of one capture action *)

Lemma save_path_sides (folder material timestamp : string) :
  save_path folder material Left timestamp <> save_path folder material Right timestamp.
Proof.
  unfold save_path. intros H.
  do 5 apply (inj (String.app _)) in H. discriminate H.
Qed.

(** The run of an action, by what [os.makedirs] answers, by the frames
    the two workers hold and by what [cv2.imwrite] answers. *)
Lemma capture_images_cases (files : Files) (now1 now2 : datetime) (self : CameraApp) :
  let dir := "results/" +:+ strftime "%d_%m_%Y" now2 in
  let pl := save_path (strftime "%d_%m_%Y" now2) (currentText (dropdown self)) Left
              (strftime "%Y%m%d_%H%M%S" now1) in
  let pr := save_path (strftime "%d_%m_%Y" now2) (currentText (dropdown self)) Right
              (strftime "%Y%m%d_%H%M%S" now1) in
  capture_images files now1 now2 self [] =
  match makedirs files dir with
  | Some e => (Raise e, [Makedirs dir (Some e)])
  | None =>
      match raw_frame (left_thread self), raw_frame (right_thread self) with
      | Some l, Some r =>
          match imwrite files pl l, imwrite files pr r with
          | Raise e, _ => (Raise e, [Makedirs dir None; Imwrite pl l (Raise e)])
          | Return ok, Raise e =>
              (Raise e, [Makedirs dir None; Imwrite pl l (Return ok);
                         Imwrite pr r (Raise e)])
          | Return ok, Return ok' =>
              (Return tt, [Makedirs dir None; Imwrite pl l (Return ok);
                           Imwrite pr r (Return ok'); Exec (success_box [pl; pr])])
          end
      | Some l, None =>
          match imwrite files pl l with
          | Raise e => (Raise e, [Makedirs dir None; Imwrite pl l (Raise e)])
          | Return ok =>
              (Return tt, [Makedirs dir None; Imwrite pl l (Return ok);
                           Exec (success_box [pl])])
          end
      | None, Some r =>
          match imwrite files pr r with
          | Raise e => (Raise e, [Makedirs dir None; Imwrite pr r (Raise e)])
          | Return ok =>
              (Return tt, [Makedirs dir None; Imwrite pr r (Return ok);
                           Exec (success_box [pr])])
          end
      | None, None => (Return tt, [Makedirs dir None; Exec warning_box])
      end
  end.
Proof.
  cbv zeta. unfold capture_images, io_bind, os_makedirs, cv2_imwrite.
  destruct (makedirs files ("results/" +:+ strftime "%d_%m_%Y" now2)); [reflexivity|].
  destruct (raw_frame (left_thread self)), (raw_frame (right_thread self));
    cbv zeta; repeat (destruct (imwrite files _ _)); reflexivity.
Qed.

(** Case analysis on the answers of [cv2.imwrite] that the goal names. *)
Ltac imwrite_cases files :=
  repeat match goal with
         | |- context [imwrite files ?q ?i] =>
             let ok := fresh "ok" in
             let exn := fresh "exn" in
             destruct (imwrite files q i) as [ok|exn] eqn:?
         end.

(** Case analysis on the run of an action, the two paths kept folded. *)
Ltac capture_cases files now1 now2 self :=
  unfold capture_trace, capture_outcome;
  rewrite (capture_images_cases files now1 now2 self); cbv zeta;
  pose proof (save_path_sides (strftime "%d_%m_%Y" now2) (currentText (dropdown self))
                (strftime "%Y%m%d_%H%M%S" now1));
  generalize dependent
    (save_path (strftime "%d_%m_%Y" now2) (currentText (dropdown self)) Left
       (strftime "%Y%m%d_%H%M%S" now1));
  generalize dependent
    (save_path (strftime "%d_%m_%Y" now2) (currentText (dropdown self)) Right
       (strftime "%Y%m%d_%H%M%S" now1));
  intros pr pl Hsides;
  destruct (makedirs files ("results/" +:+ strftime "%d_%m_%Y" now2)) as [exn|] eqn:Hmk;
  destruct (raw_frame (left_thread self)) as [l|] eqn:Hl,
           (raw_frame (right_thread self)) as [r|] eqn:Hr;
  imwrite_cases files.

Ltac split_all :=
  repeat match goal with
         | H : _ /\ _ |- _ => destruct H
         | H : _ \/ _ |- _ => destruct H
         | H : False |- _ => destruct H
         | H : (_, _) = (_, _) |- _ => injection H as ? ?; subst
         | H : Some _ = Some _ |- _ => injection H as ?; subst
         | H : Return _ = Return _ |- _ => injection H as ?; subst
         | H : Raise _ = Raise _ |- _ => injection H as ?; subst
         end.

Lemma written_issued (tr : list effect) (p : string) (img : Frame) :
  In (p, img) (written tr) -> In (p, img) (issued tr).
Proof.
  induction tr as [|[q e|q i [[|]|e]|box] tr IH]; simpl; auto. intros [H|H]; auto.
Qed.

(** The calls an action makes are calls for the frames held, made after
    [os.makedirs] returned. *)
Lemma issued_inv (files : Files)
    (now1 now2 : datetime) (self : CameraApp) (p : string) (img : Frame) :
  In (p, img) (issued (capture_trace files now1 now2 self)) ->
  makedirs files ("results/" +:+ strftime "%d_%m_%Y" now2) = None
  /\ exists s, p = save_path (strftime "%d_%m_%Y" now2) (currentText (dropdown self)) s
                    (strftime "%Y%m%d_%H%M%S" now1)
               /\ raw_frame (thread self s) = Some img.
Proof.
  unfold capture_trace. rewrite (capture_images_cases files now1 now2 self). cbv zeta.
  destruct (makedirs files _); [intros []|].
  destruct (raw_frame (left_thread self)) as [l|] eqn:El,
           (raw_frame (right_thread self)) as [r|] eqn:Er;
    imwrite_cases files;
    cbn [snd issued In]; intros Hin; (split; [reflexivity|]);
    repeat match goal with
           | H : _ \/ _ |- _ => destruct H
           | H : False |- _ => destruct H
           | H : (_, _) = (_, _) |- _ => injection H as <- <-
           end;
    first [ exists Left; split; [reflexivity | exact El]
          | exists Right; split; [reflexivity | exact Er] ].
Qed.

(** When [os.makedirs] returns, a side that holds a frame gets its call:
    the left side always, the right side when the call for the left one
    did not raise. *)
Lemma issued_side (files : Files)
    (now1 now2 : datetime) (self : CameraApp) (s : side) (img : Frame) :
  makedirs files ("results/" +:+ strftime "%d_%m_%Y" now2) = None ->
  raw_frame (thread self s) = Some img ->
  (s = Right -> left_call_returns files now1 now2 self) ->
  In (save_path (strftime "%d_%m_%Y" now2) (currentText (dropdown self)) s
        (strftime "%Y%m%d_%H%M%S" now1), img)
     (issued (capture_trace files now1 now2 self)).
Proof.
  unfold capture_trace, left_call_returns.
  rewrite (capture_images_cases files now1 now2 self). cbv zeta.
  intros ->. destruct s; simpl thread; intros -> Hleft;
    destruct (raw_frame (left_thread self)) as [l|],
             (raw_frame (right_thread self)) as [r|];
    try discriminate; imwrite_cases files; cbn [snd issued In]; auto;
    exfalso; eapply (Hleft eq_refl); eauto.
Qed.

(** An action that returns has made the call of every side that holds a
    frame. *)
Lemma issued_returned (files : Files)
    (now1 now2 : datetime) (self : CameraApp) (s : side) (img : Frame) :
  capture_outcome files now1 now2 self = Return tt ->
  raw_frame (thread self s) = Some img ->
  In (save_path (strftime "%d_%m_%Y" now2) (currentText (dropdown self)) s
        (strftime "%Y%m%d_%H%M%S" now1), img)
     (issued (capture_trace files now1 now2 self)).
Proof.
  unfold capture_trace, capture_outcome.
  rewrite (capture_images_cases files now1 now2 self). cbv zeta.
  destruct (makedirs files _); [discriminate|].
  destruct s; simpl thread; intros Hret ->; revert Hret;
    destruct (raw_frame (left_thread self)) as [l|],
             (raw_frame (right_thread self)) as [r|];
    imwrite_cases files; cbn [fst snd issued In]; intros; try discriminate; auto.
Qed.

(** A file is written exactly by a call that returns [True]. *)
Lemma written_iff (files : Files)
    (now1 now2 : datetime) (self : CameraApp) (p : string) (img : Frame) :
  In (p, img) (written (capture_trace files now1 now2 self))
  <-> In (p, img) (issued (capture_trace files now1 now2 self))
      /\ imwrite files p img = Return true.
Proof.
  capture_cases files now1 now2 self; cbn [snd written issued In];
    repeat match goal with
           | b : bool |- _ => destruct b
           end;
    cbn [written In]; split; intros; split_all; try congruence; auto.
Qed.

(** An action returns exactly when [os.makedirs] returns and so does
    every call to [cv2.imwrite] it makes. *)
Lemma capture_returns_iff (files : Files) (now1 now2 : datetime) (self : CameraApp) :
  capture_outcome files now1 now2 self = Return tt
  <-> makedirs files ("results/" +:+ strftime "%d_%m_%Y" now2) = None
      /\ forall p img, In (p, img) (issued (capture_trace files now1 now2 self)) ->
                       exists ok, imwrite files p img = Return ok.
Proof.
  capture_cases files now1 now2 self; cbn [fst snd issued In]; split;
    try discriminate; try (intros [? _]; discriminate);
    try (intros _; split; [reflexivity|]; intros p img Hin; split_all; eauto).
  all: intros [_ Hall];
    first [ reflexivity
          | destruct (Hall pl l) as [? ?]; [auto|congruence]
          | destruct (Hall pr r) as [? ?]; [auto|congruence] ].
Qed.

(** Every action asks for its date folder, and only for it. *)
Lemma made_folder (files : Files) (now1 now2 : datetime) (self : CameraApp) :
  made (capture_trace files now1 now2 self) = ["results/" +:+ strftime "%d_%m_%Y" now2].
Proof.
  capture_cases files now1 now2 self; reflexivity.
Qed.

(** A path ends in its timestamp and the extension. *)
Lemma save_path_tail (folder material : string) (s : side) (timestamp : string) :
  save_path folder material s timestamp =
  ("results/" +:+ folder +:+ "/" +:+ material +:+ "_" +:+ side_name s +:+ "_")
    +:+ (timestamp +:+ ".png").
Proof. unfold save_path. rewrite !app_assoc_s. reflexivity. Qed.

(** Two actions whose timestamps differ never name the same file, whatever
    the folders, the labels and the sides. *)
Lemma save_path_timestamps (f1 f2 m1 m2 : string) (s1 s2 : side) (now1 now1' : datetime) :
  strftime "%Y%m%d_%H%M%S" now1 <> strftime "%Y%m%d_%H%M%S" now1' ->
  save_path f1 m1 s1 (strftime "%Y%m%d_%H%M%S" now1)
  <> save_path f2 m2 s2 (strftime "%Y%m%d_%H%M%S" now1').
Proof.
  intros Hne Heq. apply Hne. rewrite !save_path_tail in Heq.
  apply app_same_tail in Heq.
  - apply app_same_head in Heq; [assumption|].
    rewrite !timestamp_length. reflexivity.
  - rewrite !length_app, !timestamp_length. reflexivity.
Qed.

Lemma same_day_folder (a b : datetime) :
  same_day a b -> strftime "%d_%m_%Y" a = strftime "%d_%m_%Y" b.
Proof. intros (Hy & Hm & Hd). rewrite !strftime_folder, Hy, Hm, Hd. reflexivity. Qed.

(** The path of a side is the path of no other side. *)
Lemma save_path_side_inj (folder material timestamp : string) (s s' : side) :
  save_path folder material s timestamp = save_path folder material s' timestamp -> s = s'.
Proof.
  intros Heq. destruct s, s'; try reflexivity.
  - now apply save_path_sides in Heq.
  - symmetry in Heq. now apply save_path_sides in Heq.
Qed.

(** ** The files on disk *)

Lemma disk_after_cons (e : effect) (tr : list effect) (disk : gmap string Frame) :
  disk_after (e :: tr) disk =
  disk_after tr (match e with
                 | Imwrite p img (Return true) => <[p := img]> disk
                 | _ => disk
                 end).
Proof. reflexivity. Qed.

(** Calls that do not write [p] leave the file at [p] alone. *)
Lemma disk_after_other (tr : list effect) (disk : gmap string Frame) (p : string) :
  ~ In p (map fst (written tr)) -> disk_after tr disk !! p = disk !! p.
Proof.
  revert disk. induction tr as [|e tr IH]; intros disk Hnot; [reflexivity|].
  rewrite disk_after_cons. destruct e as [q e|q img [[|]|e]|box]; simpl in Hnot;
    try (apply IH; exact Hnot).
  rewrite IH by tauto. apply lookup_insert_ne. tauto.
Qed.

(** After an action, each file it wrote holds the frame written. *)
Lemma disk_after_capture (files : Files)
    (now1 now2 : datetime) (self : CameraApp) (disk : gmap string Frame)
    (p : string) (img : Frame) :
  In (p, img) (written (capture_trace files now1 now2 self)) ->
  disk_after (capture_trace files now1 now2 self) disk !! p = Some img.
Proof.
  capture_cases files now1 now2 self; cbn [snd written In];
    repeat match goal with
           | b : bool |- _ => destruct b
           end;
    cbn [written In]; intros Hin; split_all;
    unfold disk_after; cbn [fold_left]; by simplify_map_eq.
Qed.

(** The call for the right side is made only after the call for the left
    side has returned. *)
Lemma issued_right_after_left (files : Files)
    (now1 now2 : datetime) (self : CameraApp) (img : Frame) :
  In (save_path (strftime "%d_%m_%Y" now2) (currentText (dropdown self)) Right
        (strftime "%Y%m%d_%H%M%S" now1), img)
     (issued (capture_trace files now1 now2 self)) ->
  left_call_returns files now1 now2 self.
Proof.
  unfold left_call_returns.
  capture_cases files now1 now2 self; cbn [snd issued In]; intros Hin l0 e Hl0;
    split_all; congruence.
Qed.

(** The calls of an action, side by side. *)
Lemma issued_iff (files : Files)
    (now1 now2 : datetime) (self : CameraApp) (s : side) (img : Frame) :
  In (save_path (strftime "%d_%m_%Y" now2) (currentText (dropdown self)) s
        (strftime "%Y%m%d_%H%M%S" now1), img)
     (issued (capture_trace files now1 now2 self))
  <-> makedirs files ("results/" +:+ strftime "%d_%m_%Y" now2) = None
      /\ raw_frame (thread self s) = Some img
      /\ (s = Right -> left_call_returns files now1 now2 self).
Proof.
  split.
  - intros Hin. pose proof Hin as Hin'.
    apply issued_inv in Hin' as (Hmk & s' & Heq & Hs').
    apply save_path_side_inj in Heq. subst s'.
    split; [exact Hmk|]. split; [exact Hs'|].
    intros ->. now apply (issued_right_after_left files now1 now2 self img).
  - intros (Hmk & Hs & Hleft). now apply issued_side.
Qed.

(** ** The claims on the capture controller *)

(** C1. A capture action returns exactly when [os.makedirs] returns and
    so does every call to [cv2.imwrite] it makes, and then it shows
    exactly one message box.  When at least one [imwrite] call was made
    the box is the success box: information icon, the success title, and
    as text the heading, an empty line, and the paths given to [imwrite]
    in this action, one per line, in order, whether or not a file came of
    the call.  When no call was made it is the warning box, and that is
    exactly when both workers hold no raw frame.  When [os.makedirs] or a
    call to [imwrite] raises, the exception leaves [capture_images] and
    no box is shown. *)
Theorem capture_dialog (files : Files) (now1 now2 : datetime) (self : CameraApp) :
  let dir := "results/" +:+ strftime "%d_%m_%Y" now2 in
  let tr := capture_trace files now1 now2 self in
  let paths := map fst (issued tr) in
  (capture_outcome files now1 now2 self = Return tt
   <-> makedirs files dir = None
       /\ forall p img, In (p, img) (issued tr) ->
                        exists ok, imwrite files p img = Return ok)
  /\ (capture_outcome files now1 now2 self = Return tt ->
      (exists box,
         shown tr = [box]
         /\ match paths with
            | [] =>
                icon box = Warning
                /\ windowTitle box = "⚠️ ไม่พบภาพ"
                /\ text box = "ไม่สามารถบันทึกภาพได้ กรุณาตรวจสอบกล้อง"
            | [p] =>
                icon box = Information
                /\ windowTitle box = "✅ ถ่ายภาพสำเร็จ"
                /\ text box = "บันทึกภาพแล้ว:" +:+ String "010" (String "010" p)
            | [p; q] =>
                icon box = Information
                /\ windowTitle box = "✅ ถ่ายภาพสำเร็จ"
                /\ text box = "บันทึกภาพแล้ว:" +:+ String "010" (String "010" p)
                              +:+ String "010" q
            | _ => False
            end)
      /\ (paths = [] <->
          raw_frame (left_thread self) = None /\ raw_frame (right_thread self) = None))
  /\ (forall e, capture_outcome files now1 now2 self = Raise e ->
        shown tr = []
        /\ (makedirs files dir = Some e /\ issued tr = []
            \/ makedirs files dir = None
               /\ exists p img, In (p, img) (issued tr) /\ imwrite files p img = Raise e)).
Proof.
  intros dir tr paths. subst dir tr paths.
  split; [apply capture_returns_iff|].
  capture_cases files now1 now2 self; cbn [fst snd issued shown map];
    (split; [intros Hret | intros e Hraise]); try discriminate.
  all: try (injection Hraise as <-; split; [reflexivity|]).
  all: try (left; split; reflexivity).
  all: try (right; split; [reflexivity|]; eexists _, _;
            split; [|eassumption]; simpl; tauto).
  all: split; [eexists; split; [reflexivity|]; repeat split|].
  all: split; [try discriminate; auto | intros [? ?]; try discriminate; auto].
Qed.

(** The counterexample to C1 as it is stated: where [os.makedirs] raises
    no box is shown at all; and on a disk where the directory of the path
    is missing no file is written, yet the box shown is the success box,
    listing the path of the file that does not exist. *)
Lemma capture_dialog_counterexample :
  shown (capture_trace no_permission noon noon
           (sample_app "wood" (Some sample_frame) None)) = []
  /\ written (capture_trace (disk_with ["results"; "results/09_03_2024"]) noon noon
                (sample_app "../raw/oak" (Some sample_frame) None)) = []
  /\ shown (capture_trace (disk_with ["results"; "results/09_03_2024"]) noon noon
              (sample_app "../raw/oak" (Some sample_frame) None)) =
     [{| icon := Information;
         windowTitle := "✅ ถ่ายภาพสำเร็จ";
         text := "บันทึกภาพแล้ว:" +:+ String "010" (String "010"
                   "results/09_03_2024/../raw/oak_left_20240309_120007.png") |}].
Proof. repeat split. Qed.

(** An action left by an exception of [cv2.imwrite]: the call for the
    left side raises, the right side gets no call and no box is shown. *)
Example capture_left_by_imwrite :
  capture_outcome no_filename noon noon
    (sample_app "wood" (Some sample_frame) (Some sample_frame))
  = Raise {| exc_type := Cv2Error;
             exc_msg := "Can't convert object to 'str' for 'filename'" |}
  /\ map fst (issued (capture_trace no_filename noon noon
                        (sample_app "wood" (Some sample_frame) (Some sample_frame))))
     = ["results/09_03_2024/wood_left_20240309_120007.png"]
  /\ shown (capture_trace no_filename noon noon
              (sample_app "wood" (Some sample_frame) (Some sample_frame))) = [].
Proof. repeat split. Qed.

(** C2. In every capture action and for each side on its own:
    [imwrite] is called for the side, with the frame [img], exactly when
    [os.makedirs] returned, the side's worker holds the raw frame [img]
    and, for the right side, the call for the left side did not raise;
    the file of the side is written exactly when, besides, that call
    returns [True]; a side without a raw frame gets no call and no file;
    in an action that returns the calls are as many as the sides that
    hold a frame, and the files written are at most as many, so 0, 1 or
    2. *)
Theorem capture_writes_side (files : Files)
    (now1 now2 : datetime) (self : CameraApp) (s : side) (img : Frame) :
  let dir := "results/" +:+ strftime "%d_%m_%Y" now2 in
  let tr := capture_trace files now1 now2 self in
  let path := save_path (strftime "%d_%m_%Y" now2) (currentText (dropdown self)) s
                (strftime "%Y%m%d_%H%M%S" now1) in
  (In (path, img) (issued tr)
   <-> makedirs files dir = None /\ raw_frame (thread self s) = Some img
       /\ (s = Right -> left_call_returns files now1 now2 self))
  /\ (In (path, img) (written tr)
      <-> makedirs files dir = None /\ raw_frame (thread self s) = Some img
          /\ (s = Right -> left_call_returns files now1 now2 self)
          /\ imwrite files path img = Return true)
  /\ (raw_frame (thread self s) = None ->
      ~ In path (map fst (issued tr)) /\ ~ In path (map fst (written tr)))
  /\ (capture_outcome files now1 now2 self = Return tt ->
      length (issued tr) =
        (if is_Some_dec (raw_frame (left_thread self)) then 1 else 0)
        + (if is_Some_dec (raw_frame (right_thread self)) then 1 else 0))
  /\ length (written tr) <= length (issued tr) /\ length (issued tr) <= 2.
Proof.
  intros dir tr path. subst dir tr path.
  split; [apply issued_iff|]. split.
  { rewrite written_iff, issued_iff. tauto. }
  split.
  { intros Hnone. split; intros Hin; apply in_map_iff in Hin as ([q i] & Hq & Hin);
      simpl in Hq; subst q; [|apply written_issued in Hin];
      apply issued_inv in Hin as (_ & s' & Heq & Hs');
      apply save_path_side_inj in Heq; subst s'; congruence. }
  capture_cases files now1 now2 self; cbn [fst snd issued written length];
    repeat match goal with
           | b : bool |- _ => destruct b
           end;
    cbn [written length]; repeat split; intros; try discriminate; simpl; lia.
Qed.

(** The counterexample to C2 as it is stated: the left worker holds a raw
    frame, [imwrite] is called for it and returns [False], and no file is
    written for the side; and where [os.makedirs] raises, the side that
    holds a frame does not even get a call. *)
Lemma capture_writes_side_counterexample :
  raw_frame (left_thread (sample_app "../raw/oak" (Some sample_frame) None))
    = Some sample_frame
  /\ issued (capture_trace (disk_with ["results"; "results/09_03_2024"]) noon noon
               (sample_app "../raw/oak" (Some sample_frame) None)) =
     [("results/09_03_2024/../raw/oak_left_20240309_120007.png", sample_frame)]
  /\ written (capture_trace (disk_with ["results"; "results/09_03_2024"]) noon noon
                (sample_app "../raw/oak" (Some sample_frame) None)) = []
  /\ raw_frame (left_thread (sample_app "wood" (Some sample_frame) None))
     = Some sample_frame
  /\ issued (capture_trace no_permission noon noon
               (sample_app "wood" (Some sample_frame) None)) = [].
Proof. repeat split. Qed.

(** C3. Every [imwrite] call of a capture action, and so every file the
    action writes ([written_issued]), has the path
    results/<folder>/<material>_<side>_<timestamp>.png, where <folder> is
    the day, month and year of the clock as DD_MM_YYYY, <timestamp> is the
    clock as YYYYMMDD_HHMMSS, <material> is the current text of the
    dropdown and <side> is left or right (the side whose frame the file
    holds). *)
Theorem written_path_format (files : Files)
    (now1 now2 : datetime) (self : CameraApp) (p : string) (img : Frame) :
  In (p, img) (issued (capture_trace files now1 now2 self)) ->
  let folder := strftime "%d_%m_%Y" now2 in
  let timestamp := strftime "%Y%m%d_%H%M%S" now1 in
  exists s : side,
    p = "results/" +:+ folder +:+ "/" +:+ currentText (dropdown self) +:+ "_"
          +:+ side_name s +:+ "_" +:+ timestamp +:+ ".png"
    /\ (side_name s = "left" \/ side_name s = "right")
    /\ raw_frame (thread self s) = Some img
    /\ folder = PyStr.d2 (day now2) +:+ "_" +:+ PyStr.d2 (month now2) +:+ "_"
                  +:+ PyStr.d4 (year now2)
    /\ timestamp = PyStr.d4 (year now1) +:+ PyStr.d2 (month now1) +:+ PyStr.d2 (day now1)
                     +:+ "_" +:+ PyStr.d2 (hour now1) +:+ PyStr.d2 (minute now1)
                     +:+ PyStr.d2 (second now1).
Proof.
  intros Hin folder timestamp.
  destruct (issued_inv files now1 now2 self p img Hin) as (_ & s & -> & Hs).
  exists s. repeat split; try assumption.
  destruct s; [left | right]; reflexivity.
Qed.

Lemma written_path_format_witness :
  exists s : side,
    "results/09_03_2024/wood_left_20240309_120007.png" =
      "results/" +:+ "09_03_2024" +:+ "/" +:+ "wood" +:+ "_" +:+ side_name s +:+ "_"
        +:+ "20240309_120007" +:+ ".png".
Proof.
  destruct (written_path_format all_fine noon noon
              (sample_app "wood" (Some sample_frame) None)
              "results/09_03_2024/wood_left_20240309_120007.png" sample_frame)
    as (s & Hp & _).
  - apply written_issued. vm_compute. left. reflexivity.
  - exists s. exact Hp.
Defined.

(** C10. The material label goes into the path as it is, whatever
    characters it holds: for every label, the call for a side that holds
    a frame, made whenever [os.makedirs] returns (and, for the right side,
    the call for the left side did not raise), has as its path the
    concatenation results/<folder>/<label>_<side>_<timestamp>.png, whose
    length is that of its pieces, nothing added, dropped or replaced; and
    no call of the action has a path of another form. *)
Theorem label_interpolated_verbatim (files : Files)
    (now1 now2 : datetime) (self : CameraApp) (s : side) (label : string) (img : Frame) :
  currentText (dropdown self) = label ->
  raw_frame (thread self s) = Some img ->
  let folder := strftime "%d_%m_%Y" now2 in
  let timestamp := strftime "%Y%m%d_%H%M%S" now1 in
  let path := "results/" +:+ folder +:+ "/" +:+ label +:+ "_" +:+ side_name s +:+ "_"
                +:+ timestamp +:+ ".png" in
  (makedirs files ("results/" +:+ folder) = None ->
   (s = Right -> left_call_returns files now1 now2 self) ->
   In (path, img) (issued (capture_trace files now1 now2 self)))
  /\ (forall p img', In (p, img') (issued (capture_trace files now1 now2 self)) ->
        exists s', p = "results/" +:+ folder +:+ "/" +:+ label +:+ "_"
                         +:+ side_name s' +:+ "_" +:+ timestamp +:+ ".png")
  /\ String.length path =
       String.length "results/" + String.length folder + 1 + String.length label + 1
       + String.length (side_name s) + 1 + String.length timestamp
       + String.length ".png".
Proof.
  intros Hlabel Hframe folder timestamp path. split; [|split].
  - intros Hmk Hleft.
    pose proof (issued_side files now1 now2 self s img Hmk Hframe Hleft) as H.
    rewrite Hlabel in H. exact H.
  - intros p img' Hin. apply issued_inv in Hin as (_ & s' & -> & _).
    exists s'. rewrite Hlabel. reflexivity.
  - subst path. rewrite !length_app. simpl. lia.
Qed.

Lemma label_interpolated_verbatim_witness :
  In ("results/09_03_2024/../raw/oak_right_20240309_120007.png", sample_frame)
     (issued (capture_trace (disk_with ["results"; "results/09_03_2024"]) noon noon
                (sample_app "../raw/oak" None (Some sample_frame)))).
Proof.
  apply (proj1 (label_interpolated_verbatim (disk_with ["results"; "results/09_03_2024"])
                  noon noon (sample_app "../raw/oak" None (Some sample_frame)) Right
                  "../raw/oak" sample_frame eq_refl eq_refl) eq_refl).
  intros _ l e Hl. discriminate Hl.
Defined.

(** C8. Take two capture actions on the same day whose timestamp strings
    differ.  Both ask for the same date folder, and the path of every
    call of either begins with that folder; a file lies in the folder
    itself when the label of its action holds no separator [/].  No call
    of the second action has the path of a file the first one wrote, and
    after the second action each file the first one wrote still holds the
    frame the first one wrote. *)
Theorem second_capture_keeps_first (files1 files2 : Files)
    (a1 a2 b1 b2 : datetime) (app1 app2 : CameraApp) (disk : gmap string Frame) :
  same_day a2 b2 ->
  strftime "%Y%m%d_%H%M%S" a1 <> strftime "%Y%m%d_%H%M%S" b1 ->
  let tr1 := capture_trace files1 a1 a2 app1 in
  let tr2 := capture_trace files2 b1 b2 app2 in
  let folder := "results/" +:+ strftime "%d_%m_%Y" a2 in
  (made tr1 = [folder] /\ made tr2 = [folder])
  /\ (forall p img, In (p, img) (issued tr1) ->
        (exists name, p = folder +:+ "/" +:+ name)
        /\ (PyStr.has_slash (currentText (dropdown app1)) = false ->
            PyStr.dirname p = folder))
  /\ (forall p img, In (p, img) (issued tr2) ->
        (exists name, p = folder +:+ "/" +:+ name)
        /\ (PyStr.has_slash (currentText (dropdown app2)) = false ->
            PyStr.dirname p = folder))
  /\ (forall p img, In (p, img) (written tr1) ->
        ~ In p (map fst (issued tr2))
        /\ disk_after tr2 (disk_after tr1 disk) !! p = Some img).
Proof.
  intros Hday Hts tr1 tr2 folder. subst tr1 tr2 folder.
  pose proof (same_day_folder _ _ Hday) as Hfolder.
  assert (forall files n1 n2 app p img,
            In (p, img) (issued (capture_trace files n1 n2 app)) ->
            (exists name, p = ("results/" +:+ strftime "%d_%m_%Y" n2) +:+ "/" +:+ name)
            /\ (PyStr.has_slash (currentText (dropdown app)) = false ->
                PyStr.dirname p = "results/" +:+ strftime "%d_%m_%Y" n2)) as Hin_folder.
  { intros files n1 n2 app p img Hin. apply issued_inv in Hin as (_ & s & -> & _).
    unfold save_path. rewrite <- (app_assoc_s "results/"). split.
    - eexists. reflexivity.
    - intros Hlabel. apply dirname_app. now apply file_name_no_slash. }
  assert (forall p img, In (p, img) (written (capture_trace files1 a1 a2 app1)) ->
            ~ In p (map fst (issued (capture_trace files2 b1 b2 app2)))) as Hfresh.
  { intros p img Hin Hin2. apply in_map_iff in Hin2 as ([q img2] & Hq & Hin2).
    simpl in Hq. subst q. apply written_issued in Hin.
    apply issued_inv in Hin as (_ & s1 & -> & _).
    apply issued_inv in Hin2 as (_ & s2 & Heq & _).
    revert Heq. now apply save_path_timestamps. }
  split; [|split; [|split]].
  - rewrite !made_folder, Hfolder. split; reflexivity.
  - intros p img Hin. now apply (Hin_folder files1 a1 a2 app1 p img).
  - intros p img Hin. rewrite Hfolder. now apply (Hin_folder files2 b1 b2 app2 p img).
  - intros p img Hin. split; [eauto|].
    rewrite disk_after_other; [now apply disk_after_capture|].
    intros Hw. apply (Hfresh p img Hin).
    apply in_map_iff in Hw as ([q i] & Hq & Hw). apply in_map_iff.
    exists (q, i). split; [exact Hq | now apply written_issued].
Qed.

Lemma second_capture_keeps_first_witness :
  disk_after (capture_trace all_fine later later
                (sample_app "wood" (Some sample_frame) None))
    (disk_after (capture_trace all_fine noon noon
                   (sample_app "wood" (Some sample_frame) None)) ∅)
    !! "results/09_03_2024/wood_left_20240309_120007.png" = Some sample_frame.
Proof.
  assert (same_day noon later) as Hday by (repeat split).
  assert (strftime "%Y%m%d_%H%M%S" noon <> strftime "%Y%m%d_%H%M%S" later) as Hts
    by (intros H; vm_compute in H; discriminate H).
  destruct (second_capture_keeps_first all_fine all_fine noon noon later later
              (sample_app "wood" (Some sample_frame) None)
              (sample_app "wood" (Some sample_frame) None) ∅ Hday Hts)
    as (_ & _ & _ & Hkeep).
  apply (Hkeep "results/09_03_2024/wood_left_20240309_120007.png" sample_frame).
  vm_compute. left. reflexivity.
Defined.

(** The counterexample to C8 as it is stated: the second action of the
    same day, with a label that climbs out of the folder, writes its file
    at a path whose directory is not the date folder the first action
    wrote into. *)
Lemma second_capture_counterexample :
  written (capture_trace all_fine noon noon
             (sample_app "wood" (Some sample_frame) None)) =
    [("results/09_03_2024/wood_left_20240309_120007.png", sample_frame)]
  /\ PyStr.dirname "results/09_03_2024/wood_left_20240309_120007.png"
     = "results/09_03_2024"
  /\ written (capture_trace all_fine later later
                (sample_app "../oak" (Some sample_frame) None)) =
     [("results/09_03_2024/../oak_left_20240309_120008.png", sample_frame)]
  /\ PyStr.dirname "results/09_03_2024/../oak_left_20240309_120008.png"
     = "results/09_03_2024/..".
Proof. repeat split. Qed.

(* ===================================================================== *)
(** ** The capture worker *)
(* ===================================================================== *)

Section WorkerProperties.

Variable VideoCapture : pyval -> option exception.

Lemma run_events_cons (e : event) (evs : list event) (t : VideoThread) :
  run_events VideoCapture (e :: evs) t = run_events VideoCapture evs (apply_event VideoCapture t e).
Proof. reflexivity. Qed.

Lemma raw_frame_start (t : VideoThread) : raw_frame (start t) = raw_frame t.
Proof. unfold start. destruct (pos t); reflexivity. Qed.

(** A step assigns [raw_frame] only when it is the return of a read with
    a frame; every other step leaves it as it is. *)
Lemma raw_frame_step (r : option Frame) (t : VideoThread) :
  raw_frame (run_step VideoCapture r t) = raw_frame t
  \/ exists f, r = Some f /\ pos t = Reading /\ raw_frame (run_step VideoCapture r t) = Some f.
Proof.
  unfold run_step. destruct (pos t) eqn:Hpos; auto.
  - destruct (VideoCapture (url t)); auto.
  - destruct (running t); auto.
  - destruct r as [f|]; [right; exists f | left]; auto.
Qed.

(** No event clears a held frame: a frame held before is held after, or
    replaced by a frame read by the event. *)
Lemma raw_frame_event (e : event) (t : VideoThread) (g : Frame) :
  raw_frame t = Some g ->
  raw_frame (apply_event VideoCapture t e) = Some g
  \/ exists f, e = EvStep (Some f) /\ raw_frame (apply_event VideoCapture t e) = Some f.
Proof.
  intros Hg. destruct e as [|r|]; simpl.
  - left. now rewrite raw_frame_start.
  - destruct (raw_frame_step r t) as [Heq | (f & -> & _ & Hf)].
    + left. congruence.
    + right. eauto.
  - left. exact Hg.
Qed.

Lemma raw_frame_events (evs : list event) (t : VideoThread) (g : Frame) :
  raw_frame t = Some g ->
  exists g', raw_frame (run_events VideoCapture evs t) = Some g'
             /\ (g' = g \/ In g' (frames_read evs)).
Proof.
  revert t g. induction evs as [|e evs IH]; intros t g Hg.
  - exists g. auto.
  - rewrite run_events_cons.
    destruct (raw_frame_event e t g Hg) as [Hsame | (f & -> & Hf)].
    + destruct (IH _ _ Hsame) as (g' & Hg' & [Heq | Hin]); exists g'; split; auto.
      right. destruct e as [|[?|]|]; simpl; auto.
    + destruct (IH _ _ Hf) as (g' & Hg' & [Heq | Hin]); exists g'; split; auto;
        right; simpl; auto.
Qed.

Lemma failed_steps_stay_in_loop (n : nat) (t : VideoThread) :
  running t = true -> in_loop t ->
  let t' := run_events VideoCapture (repeat (EvStep None) n) t in
  in_loop t' /\ same_but_pos t t'.
Proof.
  revert t. induction n as [|n IH]; intros t Hrun Hloop.
  - split; [assumption | repeat split].
  - change (run_events VideoCapture (repeat (EvStep None) (S n)) t)
      with (run_events VideoCapture (repeat (EvStep None) n) (run_step VideoCapture None t)).
    assert (running (run_step VideoCapture None t) = true /\ in_loop (run_step VideoCapture None t)
            /\ same_but_pos t (run_step VideoCapture None t)) as (Hrun' & Hloop' & Hsame).
    { unfold run_step, in_loop in *. destruct Hloop as [-> | ->].
      - rewrite Hrun. repeat split; auto.
      - repeat split; auto. }
    destruct (IH _ Hrun' Hloop') as (Hl & Hs). split; [exact Hl|].
    unfold same_but_pos in *. intuition congruence.
Qed.

(** C6. Take an iteration of the loop of a running worker whose read
    fails.  The step is an ordinary one back to the test of the loop: no
    image is emitted, [raw_frame] and every other attribute stay as they
    were, the capture is not released and the thread has not finished.  While
    nobody calls [stop], the next step enters the next read, and any
    number of failed reads leaves the worker in its loop with the same
    attributes. *)
Theorem failed_read_keeps_loop (t : VideoThread) :
  pos t = Reading ->
  let t' := run_step VideoCapture None t in
  emitted t' = emitted t
  /\ raw_frame t' = raw_frame t
  /\ same_but_pos t t'
  /\ pos t' = AtHead
  /\ isRunning t' = true
  /\ (running t = true ->
        (forall r, pos (run_step VideoCapture r t') = Reading)
        /\ forall n, let tn := run_events VideoCapture (repeat (EvStep None) n) t in
                     in_loop tn /\ isRunning tn = true /\ same_but_pos t tn).
Proof.
  intros Hpos t'.
  assert (t' = set_pos AtHead t) as ->.
  { subst t'. unfold run_step. now rewrite Hpos. }
  split; [reflexivity|]. split; [reflexivity|].
  split; [repeat split|]. split; [reflexivity|]. split; [reflexivity|].
  intros Hrun. split.
  - intros r. unfold run_step. simpl. now rewrite Hrun.
  - intros n tn.
    destruct (failed_steps_stay_in_loop n t Hrun (or_intror Hpos)) as (Hloop & Hsame).
    fold tn in Hloop, Hsame. split; [assumption|]. split; [|assumption].
    unfold isRunning. now destruct Hloop as [-> | ->].
Qed.

Lemma wait_ended (fuel : nat) (reads : list (option Frame)) (t : VideoThread) :
  pos t = Created \/ pos t = Finished -> wait VideoCapture fuel reads t = Returned t.
Proof.
  intros [H | H]; destruct fuel; simpl; now rewrite H.
Qed.

Lemma wait_raised (fuel : nat) (reads : list (option Frame)) (t : VideoThread)
    (e : exception) :
  pos t = Raised e -> wait VideoCapture fuel reads t = Died e.
Proof.
  intros H. destruct fuel; simpl; now rewrite H.
Qed.

(** A worker inside a read that does not return keeps [stop] waiting. *)
Lemma stop_blocks (fuel : nat) (t : VideoThread) :
  pos t = Reading -> stop VideoCapture fuel [] t = Pending.
Proof. intros H. unfold stop. destruct fuel; simpl; now rewrite H. Qed.

(** [stop()] on a worker whose thread is before the loop and whose source
    [cv2.VideoCapture] refuses. *)
Lemma stop_raises (t : VideoThread) (reads : list (option Frame)) (e : exception)
    (fuel : nat) :
  pos t = Started -> VideoCapture (url t) = Some e -> 1 <= fuel ->
  stop VideoCapture fuel reads t = Died e.
Proof.
  intros Hp Hvc Hfuel. destruct fuel as [|fuel]; [lia|].
  unfold stop. cbn [wait set_running pos]. rewrite Hp.
  unfold run_step. cbn [set_running pos url]. rewrite Hp, Hvc.
  now apply wait_raised.
Qed.

(** [stop()] on a running worker whose read in progress returns [r], the
    thread being inside the loop or [cv2.VideoCapture] taking its source. *)
Lemma stop_running (t : VideoThread) (r : option Frame) (reads : list (option Frame)) :
  isRunning t = true ->
  in_run t = true \/ VideoCapture (url t) = None ->
  exists t', (forall fuel, 3 <= fuel -> stop VideoCapture fuel (r :: reads) t = Returned t')
    /\ pos t' = Finished /\ cap t' = Released /\ running t' = false /\ url t' = url t
    /\ (raw_frame t' = raw_frame t
        \/ exists f, r = Some f /\ pos t = Reading /\ raw_frame t' = Some f).
Proof.
  intros Hrun Hok. destruct t as [u rn rf p c em]. unfold isRunning in Hrun.
  unfold in_run in Hok. simpl in Hrun, Hok. simpl.
  assert (forall (P : waited VideoThread -> Prop),
            (forall fuel, P (stop VideoCapture (3 + fuel) (r :: reads)
                               {| url := u; running := rn; raw_frame := rf;
                                  pos := p; cap := c; emitted := em |})) ->
            forall fuel, 3 <= fuel ->
              P (stop VideoCapture fuel (r :: reads)
                   {| url := u; running := rn; raw_frame := rf;
                      pos := p; cap := c; emitted := em |})) as Hall.
  { intros P HP fuel Hfuel. replace fuel with (3 + (fuel - 3)) by lia. apply HP. }
  destruct p as [| | | |frame| |e]; try discriminate Hrun.
  - destruct Hok as [Hok | Hvc]; [discriminate Hok|].
    exists {| url := u; running := false; raw_frame := rf;
              pos := Finished; cap := Released; emitted := em |}.
    split; [|repeat split; auto].
    apply (Hall (fun o => o = Returned _)). intros fuel.
    cbv -[to_qimage]. now rewrite Hvc.
  - exists {| url := u; running := false; raw_frame := rf;
              pos := Finished; cap := Released; emitted := em |}.
    split; [|repeat split; auto].
    apply (Hall (fun o => o = Returned _)). intros fuel. unfold stop. simpl.
    first [reflexivity | apply wait_ended; now right].
  - destruct r as [f|].
    + exists {| url := u; running := false; raw_frame := Some f;
                pos := Finished; cap := Released;
                emitted := em ++ [to_qimage f] |}.
      split; [|repeat split; auto; right; exists f; auto].
      apply (Hall (fun o => o = Returned _)). intros fuel. unfold stop. simpl.
    first [reflexivity | apply wait_ended; now right].
    + exists {| url := u; running := false; raw_frame := rf;
                pos := Finished; cap := Released; emitted := em |}.
      split; [|repeat split; auto].
      apply (Hall (fun o => o = Returned _)). intros fuel. unfold stop. simpl.
    first [reflexivity | apply wait_ended; now right].
  - exists {| url := u; running := false; raw_frame := rf;
              pos := Finished; cap := Released;
              emitted := em ++ [to_qimage frame] |}.
    split; [|repeat split; auto].
    apply (Hall (fun o => o = Returned _)). intros fuel. unfold stop. simpl.
    first [reflexivity | apply wait_ended; now right].
Qed.

(** C7. [stop()] on a running worker returns once the read in progress
    has returned, after at most three steps of the worker's thread,
    whatever that read delivers, when the thread is inside its loop or
    [cv2.VideoCapture] takes the source: the thread has then left the loop
    and finished, the capture is released and the flag is off.  A second
    [stop()] on the stopped worker returns at once and leaves the worker
    as it is.  A thread still before the loop whose source
    [cv2.VideoCapture] refuses is left by that exception instead. *)
Theorem stop_terminates_and_is_idempotent
    (t : VideoThread) (r : option Frame) (reads : list (option Frame)) :
  isRunning t = true ->
  (in_run t = true \/ VideoCapture (url t) = None ->
   exists t',
     stop VideoCapture 3 (r :: reads) t = Returned t'
     /\ (forall fuel, 3 <= fuel -> stop VideoCapture fuel (r :: reads) t = Returned t')
     /\ pos t' = Finished /\ cap t' = Released
     /\ isRunning t' = false /\ running t' = false
     /\ forall fuel reads', stop VideoCapture fuel reads' t' = Returned t')
  /\ (forall e, pos t = Started -> VideoCapture (url t) = Some e ->
       forall fuel, 1 <= fuel -> stop VideoCapture fuel (r :: reads) t = Died e).
Proof.
  intros Hrun. split.
  - intros Hok.
    destruct (stop_running t r reads Hrun Hok) as (t' & Hstop & Hpos & Hcap & Hflag & _).
    exists t'. split; [apply Hstop; lia|]. split; [exact Hstop|].
    split; [assumption|]. split; [assumption|].
    split; [unfold isRunning; now rewrite Hpos|]. split; [assumption|].
    intros fuel reads'. unfold stop.
    assert (set_running false t' = t') as ->.
    { destruct t'; simpl in *. now subst. }
    apply wait_ended. now right.
  - intros e Hp Hvc fuel Hfuel. now apply stop_raises.
Qed.

(** C9. Once a worker has completed a read with a frame, it holds a raw
    frame after every later sequence of events (starts, steps with failed
    or successful reads, stop): the frame held is that frame or one read
    later.  Every capture action taken then calls [imwrite] for the side
    that worker serves, with that frame, exactly when [os.makedirs]
    returned (and, for the right side, the call for the left side did not
    raise); it does so whenever the action returns; and the file is
    written exactly when that call is made and returns [True]. *)
Theorem raw_frame_never_cleared (t : VideoThread) (f : Frame) (evs : list event) :
  pos t = Reading ->
  let t' := run_events VideoCapture evs (run_step VideoCapture (Some f) t) in
  exists g,
    raw_frame t' = Some g
    /\ (g = f \/ In g (frames_read evs))
    /\ forall (files : Files) (now1 now2 : datetime) (self : CameraApp) (s : side),
         thread self s = t' ->
         let dir := "results/" +:+ strftime "%d_%m_%Y" now2 in
         let path := save_path (strftime "%d_%m_%Y" now2) (currentText (dropdown self)) s
                       (strftime "%Y%m%d_%H%M%S" now1) in
         (In (path, g) (issued (capture_trace files now1 now2 self))
          <-> makedirs files dir = None
              /\ (s = Right -> left_call_returns files now1 now2 self))
         /\ (capture_outcome files now1 now2 self = Return tt ->
             In (path, g) (issued (capture_trace files now1 now2 self)))
         /\ (In (path, g) (written (capture_trace files now1 now2 self))
             <-> makedirs files dir = None
                 /\ (s = Right -> left_call_returns files now1 now2 self)
                 /\ imwrite files path g = Return true).
Proof.
  intros Hpos t'. subst t'.
  assert (raw_frame (run_step VideoCapture (Some f) t) = Some f) as Hf.
  { unfold run_step. now rewrite Hpos. }
  destruct (raw_frame_events evs _ _ Hf) as (g & Hg & Hfrom).
  exists g. split; [assumption|]. split; [assumption|].
  intros files now1 now2 self s Hs dir path. subst dir path.
  rewrite <- Hs in Hg. split; [|split].
  - rewrite issued_iff. tauto.
  - intros Hret. now apply issued_returned.
  - rewrite written_iff, issued_iff. tauto.
Qed.

End WorkerProperties.

Lemma failed_read_keeps_loop_witness :
  pos (run_step takes_str_or_int None (holding (Some sample_frame))) = AtHead
  /\ raw_frame (run_step takes_str_or_int None (holding (Some sample_frame)))
     = Some sample_frame.
Proof.
  destruct (failed_read_keeps_loop takes_str_or_int (holding (Some sample_frame)) eq_refl)
    as (_ & Hraw & _ & Hpos & _).
  split; [exact Hpos | exact Hraw].
Defined.

Lemma stop_terminates_and_is_idempotent_witness :
  exists t', stop takes_str_or_int 3 [Some sample_frame] (holding None) = Returned t'
             /\ pos t' = Finished /\ cap t' = Released
             /\ stop takes_str_or_int 0 [] t' = Returned t'.
Proof.
  destruct (stop_terminates_and_is_idempotent takes_str_or_int (holding None)
              (Some sample_frame) [] eq_refl) as [Hreturns _].
  destruct (Hreturns (or_introl eq_refl))
    as (t' & Hstop & _ & Hpos & Hcap & _ & _ & Hagain).
  exists t'. repeat split; auto.
Defined.

(** The counterexample to C7 as it is stated: for a worker inside a read
    that does not return, [stop()] returns within no number of steps. *)
Lemma stop_unbounded_counterexample :
  isRunning (holding None) = true
  /\ ~ exists fuel t', stop takes_str_or_int fuel [] (holding None) = Returned t'.
Proof.
  split; [reflexivity|].
  intros (fuel & t' & H). rewrite stop_blocks in H; [discriminate H | reflexivity].
Qed.

Lemma raw_frame_never_cleared_witness :
  exists g,
    raw_frame (run_events takes_str_or_int
                 [EvStep None; EvStep None; EvStopFlag; EvStep None; EvStart]
                 (run_step takes_str_or_int (Some sample_frame) (holding None))) = Some g.
Proof.
  destruct (raw_frame_never_cleared takes_str_or_int (holding None) sample_frame
              [EvStep None; EvStep None; EvStopFlag; EvStep None; EvStart] eq_refl)
    as (g & Hg & _).
  exists g. exact Hg.
Defined.

(** The counterexample to C9 as it is stated: a worker that has read a
    frame and still holds it, and two capture actions afterwards that
    write no file for its side, one because [imwrite] returns [False],
    one because [os.makedirs] raises. *)
Lemma raw_frame_capture_counterexample :
  raw_frame (run_events takes_str_or_int [EvStep None; EvStep None]
               (run_step takes_str_or_int (Some sample_frame) (holding None)))
    = Some sample_frame
  /\ written (capture_trace (disk_with ["results"; "results/09_03_2024"]) noon noon
                (window "../raw/oak"
                   (run_events takes_str_or_int [EvStep None; EvStep None]
                      (run_step takes_str_or_int (Some sample_frame) (holding None)))
                   (holding None))) = []
  /\ issued (capture_trace no_permission noon noon
               (window "wood"
                  (run_events takes_str_or_int [EvStep None; EvStep None]
                     (run_step takes_str_or_int (Some sample_frame) (holding None)))
                  (holding None))) = [].
Proof. repeat split. Qed.

(* ===================================================================== *)
(** ** The configuration loaders *)
(* ===================================================================== *)

Section Loaders.

Variable host : Host.

Lemma load_material_types_unfold (filepath : string) (out : list string) :
  load_material_types host filepath out =
  match read_json host filepath with
  | Return (PDict items) =>
      (Return (match dict_lookup "materials" items with
               | Some v => v
               | None => PList []
               end), out)
  | Return data =>
      (Return (PList [PStr "unknown"]),
       out ++ ["Error loading material types: '" +:+ type_name data
               +:+ "' object has no attribute 'get'"])
  | Raise e =>
      (Return (PList [PStr "unknown"]),
       out ++ ["Error loading material types: " +:+ exc_msg e])
  end.
Proof.
  unfold load_material_types, read_json, try_except, bind, lift.
  destruct (open_read host filepath) as [file|e]; [|reflexivity].
  destruct (json_load host file) as [data|e]; [|reflexivity].
  destruct data as [| | | | | |items]; try reflexivity.
  unfold py_get. destruct (dict_lookup "materials" items); reflexivity.
Qed.

Lemma load_camera_config_unfold (filepath : string) (out : list string) :
  load_camera_config host filepath out =
  match read_json host filepath with
  | Return data => (Return data, out)
  | Raise e =>
      (Return (PDict []), out ++ ["Error loading camera config: " +:+ exc_msg e])
  end.
Proof.
  unfold load_camera_config, read_json, try_except, bind, lift.
  destruct (open_read host filepath) as [file|e]; [|reflexivity].
  destruct (json_load host file) as [data|e]; reflexivity.
Qed.

(** Neither loader raises, whatever the file holds. *)
Lemma load_material_types_returns (filepath : string) (out : list string) :
  exists v out', load_material_types host filepath out = (Return v, out').
Proof.
  rewrite load_material_types_unfold.
  destruct (read_json host filepath) as [[| | | | | |items]|e]; eauto.
Qed.

Lemma load_camera_config_returns (filepath : string) (out : list string) :
  exists v out', load_camera_config host filepath out = (Return v, out').
Proof.
  rewrite load_camera_config_unfold. destruct (read_json host filepath); eauto.
Qed.

(** The material labels reach the program as the file gives them. *)
Lemma load_material_types_verbatim
    (filepath : string) (out : list string) (items : list (string * pyval))
    (labels : pyval) :
  read_json host filepath = Return (PDict items) ->
  dict_lookup "materials" items = Some labels ->
  load_material_types host filepath out = (Return labels, out).
Proof. intros Hread Hget. now rewrite load_material_types_unfold, Hread, Hget. Qed.

(** A camera configuration that decodes to anything but a dict stops
    [__init__] with an exception. *)
Lemma init_raises_on_non_mapping (data : pyval) (out : list string) :
  read_json host "config/cameras.json" = Return data ->
  (forall items, data <> PDict items) ->
  exists e out', CameraApp_init host out = (Raise e, out').
Proof.
  intros Hread Hshape. unfold CameraApp_init, bind at 1.
  destruct (load_material_types_returns "config/materials.json" out)
    as (labels & out1 & ->).
  unfold bind at 1. rewrite load_camera_config_unfold, Hread.
  unfold bind at 1, lift.
  destruct (to_string_list host labels) as [texts|e]; [|eauto].
  unfold bind at 1.
  destruct data as [| | | | | |items]; try (simpl; eauto).
  now destruct (Hshape items).
Qed.

(** C4. When opening the file or decoding its JSON raises, each loader
    prints one line, the error after its prefix, and returns its
    default: the list with the one label unknown for the materials, the
    empty dict for the cameras.  Neither raises. *)
Theorem loaders_fall_back_on_error
    (filepath : string) (e : exception) (out : list string) :
  (open_read host filepath = Raise e
   \/ exists file, open_read host filepath = Return file
                   /\ json_load host file = Raise e) ->
  load_material_types host filepath out =
    (Return (PList [PStr "unknown"]),
     out ++ ["Error loading material types: " +:+ exc_msg e])
  /\ load_camera_config host filepath out =
    (Return (PDict []), out ++ ["Error loading camera config: " +:+ exc_msg e]).
Proof.
  intros Hraise.
  assert (read_json host filepath = Raise e) as Hread.
  { unfold read_json. destruct Hraise as [-> | (file & -> & ->)]; reflexivity. }
  now rewrite load_material_types_unfold, load_camera_config_unfold, Hread.
Qed.

End Loaders.

(** The loader of the materials, given a document that is not a dict,
    falls back to its default: the [get] call sits inside its [try]. *)
Example load_material_types_on_list :
  load_material_types (host_of_files [("config/materials.json", "[]")])
    "config/materials.json" [] =
  (Return (PList [PStr "unknown"]),
   ["Error loading material types: 'list' object has no attribute 'get'"]).
Proof. reflexivity. Qed.

(** A camera configuration without its keys starts the application with
    two empty sources and an empty dropdown. *)
Example startup_with_empty_dicts :
  CameraApp_init
    (host_of_files [("config/materials.json", "{}"); ("config/cameras.json", "{}")]) [] =
  (Return {| material_types := PList [];
             cameras_config := PDict [];
             dropdown := {| items := []; currentIndex := 0 |};
             left_thread := start (VideoThread_init (PStr ""));
             right_thread := start (VideoThread_init (PStr "")) |}, []).
Proof. reflexivity. Qed.

(** C5. A camera configuration that is valid JSON but not a mapping does
    not degrade to a default: with config/cameras.json holding the
    document [[]], [load_camera_config] returns the list as it is, nothing
    is printed, and [__init__] raises AttributeError at
    [self.cameras_config.get("left", "")]. *)
Theorem startup_raises_on_camera_list :
  load_camera_config
    (host_of_files [("config/materials.json", "{}"); ("config/cameras.json", "[]")])
    "config/cameras.json" [] = (Return (PList []), [])
  /\ CameraApp_init
       (host_of_files [("config/materials.json", "{}"); ("config/cameras.json", "[]")]) [] =
     (Raise {| exc_type := AttributeError;
               exc_msg := "'list' object has no attribute 'get'" |}, []).
Proof. split; reflexivity. Qed.

Lemma loaders_fall_back_on_error_witness :
  load_material_types (host_of_files []) "config/materials.json" [] =
  (Return (PList [PStr "unknown"]),
   ["Error loading material types: [Errno 2] No such file or directory: 'config/materials.json'"]).
Proof.
  exact (proj1 (loaders_fall_back_on_error (host_of_files []) "config/materials.json"
                  {| exc_type := FileNotFoundError;
                     exc_msg := "[Errno 2] No such file or directory: 'config/materials.json'" |}
                  [] (or_introl eq_refl))).
Defined.


(* ===================================================================== *)
(** * Further properties of the capture worker *)
(* ===================================================================== *)

Section WorkerInvariants.

Variable VideoCapture : pyval -> option exception.

Lemma url_event (e : event) (t : VideoThread) :
  url (apply_event VideoCapture t e) = url t.
Proof.
  destruct e as [|r|]; simpl; [unfold start | unfold run_step |]; try reflexivity.
  - destruct (pos t); reflexivity.
  - destruct (pos t); try reflexivity.
    + destruct (VideoCapture (url t)); reflexivity.
    + destruct (running t); reflexivity.
    + destruct r; reflexivity.
Qed.

Lemma url_events (evs : list event) (t : VideoThread) :
  url (run_events VideoCapture evs t) = url t.
Proof.
  revert t. induction evs as [|e evs IH]; intros t; [reflexivity|].
  rewrite run_events_cons. now rewrite IH, url_event.
Qed.

Lemma consistent_init (u : pyval) : consistent VideoCapture (VideoThread_init u).
Proof. repeat split. Qed.

(** Every event keeps a worker consistent. *)
Lemma consistent_event (e : event) (t : VideoThread) :
  consistent VideoCapture t -> consistent VideoCapture (apply_event VideoCapture t e).
Proof.
  destruct t as [u rn rf p c em]. unfold consistent. simpl. intros [Hpos Hlast].
  destruct e as [|r|]; simpl.
  - unfold start; simpl. destruct p; simpl in *; intuition.
  - unfold run_step; simpl. destruct p; simpl in *; try (split; tauto).
    + destruct (VideoCapture u) eqn:Hvc; simpl; rewrite ?Hvc; intuition.
    + destruct rn; simpl; intuition.
    + destruct r as [f|]; simpl; intuition.
    + split; [tauto|]. rewrite Hlast. apply last_snoc.
  - destruct p; simpl in *; intuition.
Qed.

Lemma consistent_events (evs : list event) (t : VideoThread) :
  consistent VideoCapture t -> consistent VideoCapture (run_events VideoCapture evs t).
Proof.
  revert t. induction evs as [|e evs IH]; intros t Ht; [assumption|].
  rewrite run_events_cons. now apply IH, consistent_event.
Qed.

(** X1. Whatever happens to a worker from its construction on ([start],
    steps of its thread with any reads, the flag of [stop], in any order),
    it holds an unreleased [VideoCapture] object (whether or not a device
    opened behind it) exactly while its thread is inside the [while] of
    [run], and then [cv2.VideoCapture] took its source; once [run] has
    returned the object is released and the flag is off; a thread left by
    an exception is one whose source [cv2.VideoCapture] refused, and it
    holds no unreleased object; the [url] never changes. *)
Theorem capture_held_exactly_in_run (u : pyval) (evs : list event) :
  let t := run_events VideoCapture evs (VideoThread_init u) in
  url t = u
  /\ (cap t = Constructed u <-> in_run t = true)
  /\ (in_run t = true -> VideoCapture u = None)
  /\ (pos t = Finished -> cap t = Released /\ running t = false)
  /\ (pos t = Created -> cap t = NoCapture /\ raw_frame t = None)
  /\ (forall e, pos t = Raised e -> VideoCapture u = Some e /\ cap t <> Constructed u).
Proof.
  intros t. pose proof (consistent_events evs _ (consistent_init u)) as [Hpos _].
  pose proof (url_events evs (VideoThread_init u)) as Hurl. fold t in Hpos, Hurl.
  simpl in Hurl. split; [exact Hurl|]. rewrite Hurl in Hpos. unfold in_run.
  destruct (pos t); repeat split; intros;
    repeat match goal with
           | H : _ /\ _ |- _ => destruct H
           | H : _ \/ _ |- _ => destruct H
           | H : Raised _ = Raised _ |- _ => injection H as ->
           end;
    try congruence; auto.
Qed.

(** X2. At every moment of a worker's life outside the stretch between
    the assignment of [raw_frame] (line 28) and the emission (line 34),
    the last image it emitted is the image of the raw frame it holds, and
    it has emitted nothing exactly while it holds none; inside that
    stretch the frame it holds is the frame whose image it is about to
    emit. *)
Theorem last_emitted_is_held_frame (u : pyval) (evs : list event) :
  let t := run_events VideoCapture evs (VideoThread_init u) in
  (forall frame, pos t = Emitting frame -> raw_frame t = Some frame)
  /\ ((forall frame, pos t <> Emitting frame) ->
      last (emitted t) = to_qimage <$> raw_frame t
      /\ (raw_frame t = None <-> emitted t = [])).
Proof.
  intros t. pose proof (consistent_events evs _ (consistent_init u)) as [_ Hlast].
  fold t in Hlast. split.
  - intros frame Hp. now rewrite Hp in Hlast.
  - intros Hout.
    assert (last (emitted t) = to_qimage <$> raw_frame t) as Heq.
    { destruct (pos t) eqn:Hp; try exact Hlast. now destruct (Hout frame). }
    split; [exact Heq|]. rewrite <- last_None, Heq.
    destruct (raw_frame t); simpl; split; congruence.
Qed.

(** With the flag off, an event adds an image only by ending the
    iteration in progress, and starts no iteration. *)
Lemma stopped_event (e : event) (t : VideoThread) :
  running t = false ->
  let t' := apply_event VideoCapture t e in
  running t' = false
  /\ length (emitted t') + (if in_iteration t' then 1 else 0)
     <= length (emitted t) + (if in_iteration t then 1 else 0)
  /\ (in_iteration t = false ->
      in_iteration t' = false /\ emitted t' = emitted t /\ raw_frame t' = raw_frame t).
Proof.
  destruct t as [u rn rf p c em]. unfold in_iteration. simpl. intros ->.
  destruct e as [|r|]; simpl; [unfold start | unfold run_step |]; simpl;
    destruct p; simpl; try (destruct (VideoCapture u)); try (destruct r); simpl;
    rewrite ?List.length_app; simpl;
    repeat split; try congruence; try lia.
Qed.

Lemma stopped_events (evs : list event) (t : VideoThread) :
  running t = false ->
  let t' := run_events VideoCapture evs t in
  running t' = false
  /\ length (emitted t') + (if in_iteration t' then 1 else 0)
     <= length (emitted t) + (if in_iteration t then 1 else 0)
  /\ (in_iteration t = false ->
      in_iteration t' = false /\ emitted t' = emitted t /\ raw_frame t' = raw_frame t).
Proof.
  revert t. induction evs as [|e evs IH]; intros t Hrun; [repeat split; auto|].
  rewrite run_events_cons.
  destruct (stopped_event e t Hrun) as (Hrun' & Hlen & Hout).
  destruct (IH _ Hrun') as (? & Hlen' & Hout'). split; [assumption|]. split; [lia|].
  intros Hin. destruct (Hout Hin) as (Hin' & Hem & Hraw).
  destruct (Hout' Hin') as (? & ? & ?). repeat split; congruence.
Qed.

(** X3. Once the flag is off it stays off, and the worker completes at
    most the iteration that was in progress: over any later events it
    emits at most one more image, and none at all, keeping the frame it
    holds, when no iteration was in progress (the thread neither inside a
    read nor about to emit); it then never enters one again. *)
Theorem stopped_worker_reads_no_more (t : VideoThread) (evs : list event) :
  running t = false ->
  let t' := run_events VideoCapture evs t in
  running t' = false
  /\ length (emitted t') <= length (emitted t) + 1
  /\ (in_iteration t = false ->
        emitted t' = emitted t /\ raw_frame t' = raw_frame t
        /\ pos t' <> Reading /\ forall frame, pos t' <> Emitting frame).
Proof.
  intros Hrun t'. subst t'.
  destruct (stopped_events evs t Hrun) as (Hrun' & Hlen & Hout).
  split; [assumption|]. split.
  - destruct (in_iteration t), (in_iteration (run_events VideoCapture evs t)); lia.
  - intros Hin. destruct (Hout Hin) as (Hin' & Hem & Hraw).
    split; [assumption|]. split; [assumption|].
    unfold in_iteration in Hin'.
    split; [|intros frame]; intros Hp; rewrite Hp in Hin'; discriminate.
Qed.

(** While nobody writes the flag, a worker inside its loop stays there. *)
Lemma unstopped_event (e : event) (t : VideoThread) :
  running t = true -> e <> EvStopFlag ->
  let t' := apply_event VideoCapture t e in
  running t' = true
  /\ (pos t <> Finished -> pos t' <> Finished)
  /\ (in_run t = true -> in_run t' = true)
  /\ (isRunning t = true -> VideoCapture (url t) = None ->
      isRunning t' = true /\ VideoCapture (url t') = None)
  /\ (cap t <> Released -> cap t' <> Released).
Proof.
  destruct t as [u rn rf p c em]. simpl. intros -> He.
  destruct e as [|r|]; [| |congruence]; simpl; [unfold start | unfold run_step];
    unfold isRunning, in_run; simpl; destruct p; simpl;
    try (destruct (VideoCapture u) eqn:Hvc); try (destruct r); simpl;
    repeat split; try congruence; try discriminate.
Qed.

Lemma unstopped_events (evs : list event) (t : VideoThread) :
  running t = true -> ~ In EvStopFlag evs ->
  let t' := run_events VideoCapture evs t in
  running t' = true
  /\ (pos t <> Finished -> pos t' <> Finished)
  /\ (in_run t = true -> in_run t' = true)
  /\ (isRunning t = true -> VideoCapture (url t) = None ->
      isRunning t' = true /\ VideoCapture (url t') = None)
  /\ (cap t <> Released -> cap t' <> Released).
Proof.
  revert t. induction evs as [|e evs IH]; intros t Hrun Hno; [repeat split; auto|].
  rewrite run_events_cons. simpl in Hno.
  destruct (unstopped_event e t Hrun ltac:(intuition congruence))
    as (Hr & H1 & H2 & H3 & H4).
  destruct (IH _ Hr ltac:(tauto)) as (? & ? & ? & H3' & ?).
  split; [assumption|]. split; [auto|]. split; [auto|]. split; [|auto].
  intros Hi Hvc. destruct (H3 Hi Hvc) as [Hi' Hvc']. exact (H3' Hi' Hvc').
Qed.

(** X4. Once inside the loop of [run], a thread leaves it through [stop]
    only: as long as the flag is on and no event writes it, a thread
    inside the loop stays inside, no thread finishes, and a capture that
    is not released is not released, whatever the reads deliver.  A
    thread started but not yet in the loop stays running too when
    [cv2.VideoCapture] takes its source. *)
Theorem loop_ends_only_by_stop (t : VideoThread) (evs : list event) :
  running t = true -> ~ In EvStopFlag evs ->
  let t' := run_events VideoCapture evs t in
  running t' = true
  /\ (in_run t = true -> in_run t' = true /\ isRunning t' = true)
  /\ (pos t <> Finished -> pos t' <> Finished)
  /\ (isRunning t = true -> VideoCapture (url t) = None -> isRunning t' = true)
  /\ (cap t <> Released -> cap t' <> Released).
Proof.
  intros Hrun Hno t'. subst t'.
  destruct (unstopped_events evs t Hrun Hno) as (? & ? & Hin & Hrunning & ?).
  split; [assumption|]. split; [|split; [assumption|split; [|assumption]]].
  - intros Hi. specialize (Hin Hi). split; [assumption|].
    unfold in_run, isRunning in *.
    destruct (pos (run_events VideoCapture evs t)); congruence.
  - intros Hi Hvc. now destruct (Hrunning Hi Hvc).
Qed.

(** X6. [stop()] on a worker that was never started returns at once,
    with the flag off.  When the worker is started afterwards its thread
    leaves at the first test of the loop, if it gets there: it never
    reads, holds no frame and emits no image, whatever follows. *)
Theorem stop_before_start_disables_worker
    (t : VideoThread) (fuel : nat) (reads : list (option Frame)) (evs : list event) :
  pos t = Created ->
  stop VideoCapture fuel reads t = Returned (set_running false t)
  /\ let t' := run_events VideoCapture evs (set_running false t) in
     running t' = false /\ pos t' <> Reading
     /\ emitted t' = emitted t /\ raw_frame t' = raw_frame t.
Proof.
  intros Hpos. split.
  - unfold stop. destruct fuel; simpl; now rewrite Hpos.
  - assert (in_iteration (set_running false t) = false) as Hin.
    { unfold in_iteration. simpl. now rewrite Hpos. }
    destruct (stopped_events evs (set_running false t) eq_refl) as (? & _ & Hout).
    destruct (Hout Hin) as (Hin' & ? & ?). repeat split; try assumption.
    intros Hp. unfold in_iteration in Hin'. rewrite Hp in Hin'. discriminate.
Qed.

End WorkerInvariants.

Lemma stopped_worker_reads_no_more_witness :
  length (emitted (run_events takes_str_or_int
                     [EvStep (Some sample_frame); EvStep None;
                      EvStep (Some sample_frame); EvStart;
                      EvStep None; EvStep None; EvStep (Some sample_frame)]
                     (set_running false (holding None)))) <= 1.
Proof.
  destruct (stopped_worker_reads_no_more takes_str_or_int
              (set_running false (holding None))
              [EvStep (Some sample_frame); EvStep None; EvStep (Some sample_frame);
               EvStart; EvStep None; EvStep None; EvStep (Some sample_frame)] eq_refl)
    as (_ & Hlen & _).
  exact Hlen.
Defined.

Lemma loop_ends_only_by_stop_witness :
  isRunning (run_events takes_str_or_int
               [EvStep None; EvStep None; EvStep (Some sample_frame);
                EvStep None; EvStep None; EvStep None]
               (start (VideoThread_init (PStr "rtsp://cam")))) = true.
Proof.
  destruct (loop_ends_only_by_stop takes_str_or_int
              (start (VideoThread_init (PStr "rtsp://cam")))
              [EvStep None; EvStep None; EvStep (Some sample_frame);
               EvStep None; EvStep None; EvStep None] eq_refl)
    as (_ & _ & _ & Hrun & _).
  - simpl. intuition discriminate.
  - apply Hrun; reflexivity.
Defined.

Lemma stop_before_start_disables_worker_witness :
  pos (run_events takes_str_or_int
         [EvStart; EvStep None; EvStep (Some sample_frame); EvStep None]
         (set_running false (VideoThread_init (PStr "rtsp://cam")))) = Finished
  /\ raw_frame (run_events takes_str_or_int
                  [EvStart; EvStep None; EvStep (Some sample_frame); EvStep None]
                  (set_running false (VideoThread_init (PStr "rtsp://cam")))) = None.
Proof.
  destruct (stop_before_start_disables_worker takes_str_or_int
              (VideoThread_init (PStr "rtsp://cam")) 0 []
              [EvStart; EvStep None; EvStep (Some sample_frame); EvStep None] eq_refl)
    as (_ & _ & _ & _ & Hraw).
  split; [reflexivity | exact Hraw].
Defined.

(** ** The emitted image *)

Lemma row_data_length (row : list pixel) :
  length (concat (map (fun px : pixel => let '(x, y, z) := px in [x; y; z]) row))
  = 3 * length row.
Proof.
  induction row as [|[[x y] z] row IH]; [reflexivity|].
  cbn [map concat]. rewrite List.length_app, IH. simpl. lia.
Qed.

Lemma ndarray_data_length (w : nat) (image : Frame) :
  Forall (fun row => length row = w) image ->
  length (ndarray_data image) = length image * (3 * w).
Proof.
  unfold ndarray_data. induction 1 as [|row image Hrow _ IH]; [reflexivity|].
  cbn [map concat]. rewrite List.length_app, row_data_length, IH, Hrow. simpl. lia.
Qed.

Lemma cvtColor_rows (w : nat) (frame : Frame) :
  Forall (fun row => length row = w) frame ->
  Forall (fun row => length row = w) (cvtColor_BGR2RGB frame).
Proof.
  unfold cvtColor_BGR2RGB. induction 1 as [|row frame Hrow _ IH]; constructor.
  - now rewrite length_map.
  - exact IH.
Qed.

(** X5. The image emitted for a rectangular frame (every row as long as
    the first) has the height and width of the frame, three bytes per
    pixel in a line, and a buffer of exactly height times bytes-per-line
    values: the size [QImage] is told is the size of the data it gets. *)
Theorem qimage_buffer_matches_geometry (frame : Frame) :
  rectangular frame ->
  let q := to_qimage frame in
  img_height q = length frame
  /\ img_width q = length (hd [] frame)
  /\ img_bytes_per_line q = 3 * img_width q
  /\ length (img_data q) = img_height q * img_bytes_per_line q.
Proof.
  intros Hrect q. subst q. unfold to_qimage, shape.
  cbn [img_height img_width img_bytes_per_line img_data].
  assert (length (hd [] (cvtColor_BGR2RGB frame)) = length (hd [] frame)) as Hw.
  { destruct frame; [reflexivity|]. simpl. now rewrite length_map. }
  assert (length (cvtColor_BGR2RGB frame) = length frame) as Hh.
  { unfold cvtColor_BGR2RGB. now rewrite length_map. }
  rewrite Hw, Hh. repeat split.
  rewrite (ndarray_data_length (length (hd [] frame))), Hh; [reflexivity|].
  now apply cvtColor_rows.
Qed.

Lemma qimage_buffer_matches_geometry_witness :
  length (img_data (to_qimage sample_frame)) = 1 * (3 * 2).
Proof.
  destruct (qimage_buffer_matches_geometry sample_frame) as (Hh & Hw & Hb & Hlen).
  - repeat constructor.
  - rewrite Hlen, Hb, Hw, Hh. reflexivity.
Defined.


(** ** closeEvent *)

Section CloseEvent.

Variable VideoCapture : pyval -> option exception.

(** Steps of a thread that was started leave it started. *)
Lemma steps_not_created (reads : list (option Frame)) (t : VideoThread) :
  pos t <> Created ->
  pos (run_events VideoCapture (map EvStep reads) t) <> Created.
Proof.
  revert t. induction reads as [|r reads IH]; intros t Ht; [exact Ht|].
  cbn [map]. rewrite run_events_cons. apply IH. cbn [apply_event].
  unfold run_step. destruct (pos t) eqn:Hp; try congruence; try discriminate.
  - destruct (VideoCapture (url t)); discriminate.
  - destruct (running t); discriminate.
  - destruct r; discriminate.
Qed.

(** [stop()] on a running worker whose read in progress returns: it
    returns with the thread finished, or the thread is left by the
    exception of [cv2.VideoCapture]. *)
Lemma stop_cases (t : VideoThread) (r : option Frame) (reads : list (option Frame)) :
  isRunning t = true ->
  (exists t', stop VideoCapture 3 (r :: reads) t = Returned t'
              /\ pos t' = Finished /\ cap t' = Released /\ running t' = false
              /\ (raw_frame t <> None -> raw_frame t' <> None))
  \/ (exists e, stop VideoCapture 3 (r :: reads) t = Died e
                /\ VideoCapture (url t) = Some e /\ in_run t = false).
Proof.
  intros Hrun.
  assert (in_run t = true \/ VideoCapture (url t) = None
          \/ exists e, pos t = Started /\ VideoCapture (url t) = Some e) as Hcase.
  { unfold isRunning in Hrun. unfold in_run.
    destruct (pos t); try discriminate Hrun; auto.
    destruct (VideoCapture (url t)) as [e|]; eauto. }
  assert (in_run t = true \/ VideoCapture (url t) = None -> _) as Hret
    by exact (stop_running VideoCapture t r reads Hrun).
  destruct Hcase as [Hin | [Hvc | (e & Hp & Hvc)]].
  - left. destruct (Hret (or_introl Hin)) as (t' & Hs & ? & ? & ? & _ & Hf).
    exists t'. split; [apply Hs; lia|]. repeat split; try assumption.
    destruct Hf as [-> | (f & _ & _ & ->)]; congruence.
  - left. destruct (Hret (or_intror Hvc)) as (t' & Hs & ? & ? & ? & _ & Hf).
    exists t'. split; [apply Hs; lia|]. repeat split; try assumption.
    destruct Hf as [-> | (f & _ & _ & ->)]; congruence.
  - right. exists e. split; [apply stop_raises; auto|]. split; [assumption|].
    unfold in_run. now rewrite Hp.
Qed.

(** The same for a worker that was started at some time, whatever its
    thread has come to. *)
Lemma stop_cases_started (t : VideoThread) (r : option Frame)
    (reads : list (option Frame)) :
  consistent VideoCapture t -> pos t <> Created ->
  (exists t', stop VideoCapture 3 (r :: reads) t = Returned t'
              /\ pos t' = Finished /\ cap t' = Released /\ running t' = false
              /\ (raw_frame t <> None -> raw_frame t' <> None))
  \/ (exists e, stop VideoCapture 3 (r :: reads) t = Died e
                /\ VideoCapture (url t) = Some e /\ in_run t = false).
Proof.
  intros [Hcons _] Hnc. destruct (isRunning t) eqn:Hrun; [now apply stop_cases|].
  unfold isRunning in Hrun. destruct (pos t) eqn:Hp; try discriminate Hrun.
  - congruence.
  - left. exists (set_running false t). unfold stop.
    rewrite wait_ended by (right; exact Hp).
    destruct Hcons as [Hcap _]. repeat split; auto.
  - right. exists e. unfold stop.
    rewrite (wait_raised VideoCapture 3 (r :: reads) (set_running false t) e Hp).
    destruct Hcons as [Hvc _]. repeat split; auto.
    unfold in_run. now rewrite Hp.
Qed.

(** X7. [closeEvent] on a window whose two workers are running comes to
    its end once the read in progress of each worker has returned, after
    at most three steps of each worker's thread, whatever those reads
    deliver and however far the right worker gets while the left one is
    waited for.  It returns with the event accepted, both threads
    finished, both captures released and both flags off, a worker that
    held a frame still holding one; it does so whenever each thread is
    inside its loop or has a source that [cv2.VideoCapture] takes.  The
    one other end is a worker's thread left by the exception with which
    [cv2.VideoCapture] refuses its source. *)
Theorem closeEvent_stops_both_workers
    (read_left read_right : option Frame)
    (reads_left meanwhile_right reads_right : list (option Frame))
    (self : CameraApp) (event : QCloseEvent) :
  isRunning (left_thread self) = true ->
  isRunning (right_thread self) = true ->
  consistent VideoCapture (right_thread self) ->
  let result := closeEvent VideoCapture 3 (read_left :: reads_left) meanwhile_right
                  (read_right :: reads_right) self event in
  match result with
  | Returned (self', event') =>
      accepted event' = true
      /\ (forall s, pos (thread self' s) = Finished /\ cap (thread self' s) = Released
                    /\ running (thread self' s) = false
                    /\ (raw_frame (thread self s) <> None ->
                        raw_frame (thread self' s) <> None))
      /\ dropdown self' = dropdown self
  | Pending => False
  | Died e => exists s, VideoCapture (url (thread self s)) = Some e
  end
  /\ ((forall s, in_run (thread self s) = true
                 \/ VideoCapture (url (thread self s)) = None) ->
      exists self' event', result = Returned (self', event')).
Proof.
  intros Hl Hr Hcons result. subst result. unfold closeEvent.
  set (r := run_events VideoCapture (map EvStep meanwhile_right) (right_thread self)).
  assert (consistent VideoCapture r) as Hrc by (now apply consistent_events).
  assert (url r = url (right_thread self)) as Hurl by (apply url_events).
  assert (pos r <> Created) as Hnc.
  { apply steps_not_created. unfold isRunning in Hr.
    destruct (pos (right_thread self)); congruence. }
  assert (raw_frame (right_thread self) <> None -> raw_frame r <> None) as Hkeep.
  { intros Hsome. destruct (raw_frame (right_thread self)) as [g|] eqn:Hg; [|congruence].
    destruct (raw_frame_events VideoCapture (map EvStep meanwhile_right) _ g Hg)
      as (g' & Hg' & _).
    fold r in Hg'. congruence. }
  assert (in_run (right_thread self) = true \/ VideoCapture (url (right_thread self)) = None
          -> VideoCapture (url r) = None) as Hright.
  { rewrite Hurl. intros [Hin | Hvc]; [|exact Hvc].
    destruct Hcons as [Hc _]. unfold in_run in Hin.
    destruct (pos (right_thread self)); try discriminate Hin; tauto. }
  destruct (stop_cases (left_thread self) read_left reads_left Hl)
    as [(l & -> & Hlp & Hlc & Hlr & Hlf) | (e & -> & Hlvc & Hlin)].
  - destruct (stop_cases_started r read_right reads_right Hrc Hnc)
      as [(r' & -> & Hrp & Hrcap & Hrr & Hrf) | (e & -> & Hrvc & Hrin)].
    + split; [|eauto].
      split; [reflexivity|]. split; [|reflexivity].
      intros [|]; cbn [thread left_thread right_thread]; repeat split; auto.
    + split.
      * exists Right. cbn [thread]. congruence.
      * intros Hall. specialize (Hright (Hall Right)). congruence.
  - split.
    + exists Left. exact Hlvc.
    + intros Hall. destruct (Hall Left) as [Hin | Hvc]; cbn [thread] in *; congruence.
Qed.

End CloseEvent.

Lemma closeEvent_stops_both_workers_witness :
  exists self' event',
    closeEvent takes_str_or_int 3 [Some sample_frame] [None; None; Some sample_frame]
      [None] (sample_app "wood" None None) {| accepted := false |}
    = Returned (self', event')
    /\ accepted event' = true
    /\ pos (left_thread self') = Finished /\ pos (right_thread self') = Finished.
Proof.
  destruct (closeEvent_stops_both_workers takes_str_or_int (Some sample_frame) None []
              [None; None; Some sample_frame] []
              (sample_app "wood" None None) {| accepted := false |}
              eq_refl eq_refl ltac:(repeat split))
    as [Hend Hreturns].
  destruct Hreturns as (self' & event' & Hclose); [intros [|]; left; reflexivity|].
  rewrite Hclose in Hend. destruct Hend as (Hacc & Hboth & _).
  exists self', event'. split; [exact Hclose|]. split; [exact Hacc|]. split.
  - now destruct (Hboth Left) as (Hfin & _).
  - now destruct (Hboth Right) as (Hfin & _).
Defined.

(** ** The preview labels *)

(** Delivering images to the slot of a side leaves its label showing the
    last one, and the other label as it was. *)
Lemma deliver_labels (s : side) (images : list QImage) (ui : Previews) :
  label_of s (deliver s images ui) =
    match last images with
    | Some q => show_scaled q (label_of s ui)
    | None => label_of s ui
    end
  /\ label_of (other_side s) (deliver s images ui) = label_of (other_side s) ui.
Proof.
  revert ui. induction images as [|q images IH]; intros ui; [split; reflexivity|].
  change (deliver s (q :: images) ui) with (deliver s images (slot s q ui)).
  destruct (IH (slot s q ui)) as [Hs Ho]. rewrite Hs, Ho. split.
  - rewrite last_cons. destruct (last images); destruct s; reflexivity.
  - destruct s; reflexivity.
Qed.

(** X8. Take a worker at any moment of its life and let the images it
    has emitted reach the slot connected for its side, in order, on a
    fresh window.  The label of that side keeps its size of 480 by 360
    and shows the last image emitted, asked to be scaled into that size
    with the aspect ratio kept and the smooth transformation, or nothing
    when no image was emitted; outside the stretch between the assignment
    of [raw_frame] and the emission that image is the image of the raw
    frame the worker holds; the label of the other side is untouched. *)
Theorem preview_shows_held_frame
    (VideoCapture : pyval -> option exception) (u : pyval) (evs : list event) (s : side) :
  let t := run_events VideoCapture evs (VideoThread_init u) in
  let ui := deliver s (emitted t) Previews_init in
  label_size (label_of s ui) = (480, 360)
  /\ pixmap (label_of s ui) =
       (fun q => {| from_image := q; scaled_to := (480, 360);
                    aspect_mode := KeepAspectRatio;
                    transformation := SmoothTransformation |}) <$> last (emitted t)
  /\ ((forall frame, pos t <> Emitting frame) ->
      from_image <$> pixmap (label_of s ui) = to_qimage <$> raw_frame t)
  /\ label_of (other_side s) ui = create_preview_label.
Proof.
  intros t ui. subst ui.
  destruct (deliver_labels s (emitted t) Previews_init) as [Hs Ho].
  pose proof (consistent_events VideoCapture evs _ (consistent_init VideoCapture u))
    as [_ Hlast].
  fold t in Hlast. rewrite Hs, Ho.
  split; [destruct (last (emitted t)); destruct s; reflexivity|].
  split; [destruct (last (emitted t)); destruct s; reflexivity|].
  split; [|destruct s; reflexivity].
  intros Hout.
  assert (last (emitted t) = to_qimage <$> raw_frame t) as ->.
  { destruct (pos t) eqn:Hp; try exact Hlast. now destruct (Hout frame). }
  destruct (raw_frame t); destruct s; reflexivity.
Qed.

(* ===================================================================== *)
(** * Further properties of the loaders and of the start *)
(* ===================================================================== *)

Section Configuration.

Variable host : Host.

(** X9. [load_material_types] never raises, for no host and no file: it
    returns a value and prints at most one line, and when it prints it
    returns the list with the one label unknown. *)
Theorem load_material_types_never_raises (filepath : string) (out : list string) :
  exists v lines,
    load_material_types host filepath out = (Return v, out ++ lines)
    /\ length lines <= 1
    /\ (lines <> [] -> v = PList [PStr "unknown"]).
Proof.
  rewrite load_material_types_unfold.
  destruct (read_json host filepath) as [[| | | | | |items]|e];
    try (eexists _, [_]; split; [reflexivity|]; split; [simpl; lia | reflexivity]).
  eexists _, []. rewrite app_nil_r. split; [reflexivity|].
  split; [simpl; lia | congruence].
Qed.

(** X10. When the file decodes to a dict, [load_material_types] returns
    what the dict holds under materials, as it is, and the empty list when
    the key is missing; it prints nothing and does not fall back to
    unknown. *)
Theorem load_material_types_reads_key
    (filepath : string) (out : list string) (items : list (string * pyval)) :
  read_json host filepath = Return (PDict items) ->
  load_material_types host filepath out =
    (Return (default (PList []) (dict_lookup "materials" items)), out).
Proof.
  intros Hread. rewrite load_material_types_unfold, Hread.
  destruct (dict_lookup "materials" items); reflexivity.
Qed.

(** X11. When the file decodes to anything but a dict,
    [load_material_types] falls back: it returns the list with the one
    label unknown and prints the AttributeError of the [get] call, which
    names the type of the document. *)
Theorem load_material_types_rejects_non_dict
    (filepath : string) (out : list string) (data : pyval) :
  read_json host filepath = Return data ->
  (forall items, data <> PDict items) ->
  load_material_types host filepath out =
    (Return (PList [PStr "unknown"]),
     out ++ ["Error loading material types: '" +:+ type_name data
             +:+ "' object has no attribute 'get'"]).
Proof.
  intros Hread Hshape. rewrite load_material_types_unfold, Hread.
  destruct data as [| | | | | |items]; try reflexivity. now destruct (Hshape items).
Qed.

(** X12. [load_camera_config] never raises and checks no shape: either
    the file decodes and the document is returned as it is, whatever it
    is, with nothing printed, or opening or decoding raises and the empty
    dict is returned with one line printed. *)
Theorem load_camera_config_passes_document (filepath : string) (out : list string) :
  (exists data, read_json host filepath = Return data
                /\ load_camera_config host filepath out = (Return data, out))
  \/ (exists e, read_json host filepath = Raise e
                /\ load_camera_config host filepath out =
                   (Return (PDict []),
                    out ++ ["Error loading camera config: " +:+ exc_msg e])).
Proof.
  rewrite load_camera_config_unfold.
  destruct (read_json host filepath) as [data|e]; [left | right]; eauto.
Qed.

End Configuration.

Section Start.

Variable host : Host.

(** [__init__] once the two loaders have returned. *)
Lemma CameraApp_init_unfold
    (out out1 out2 : list string) (m c : pyval) :
  load_material_types host "config/materials.json" out = (Return m, out1) ->
  load_camera_config host "config/cameras.json" out1 = (Return c, out2) ->
  CameraApp_init host out =
  match to_string_list host m with
  | Raise e => (Raise e, out2)
  | Return texts =>
      match c with
      | PDict items =>
          (Return {| material_types := m; cameras_config := c;
                     dropdown := {| items := texts; currentIndex := 0 |};
                     left_thread :=
                       start (VideoThread_init
                                (default (PStr "") (dict_lookup "left" items)));
                     right_thread :=
                       start (VideoThread_init
                                (default (PStr "") (dict_lookup "right" items))) |},
           out2)
      | _ => (Raise {| exc_type := AttributeError;
                       exc_msg := "'" +:+ type_name c
                                  +:+ "' object has no attribute 'get'" |}, out2)
      end
  end.
Proof.
  intros Hm Hc. unfold CameraApp_init, bind at 1. rewrite Hm.
  unfold bind at 1. rewrite Hc. unfold bind at 1, lift.
  destruct (to_string_list host m) as [texts|e]; [|reflexivity].
  unfold bind at 1. destruct c as [| | | | | |items]; try reflexivity.
  unfold py_get, bind, ret.
  destruct (dict_lookup "left" items), (dict_lookup "right" items); reflexivity.
Qed.

(** X13. [__init__] returns exactly when the value of the materials
    loader converts to a list of strings for the dropdown and the value
    of the camera loader is a dict; in every other case it raises. *)
Theorem init_returns_iff (out out1 out2 : list string) (m c : pyval) :
  load_material_types host "config/materials.json" out = (Return m, out1) ->
  load_camera_config host "config/cameras.json" out1 = (Return c, out2) ->
  (exists app out', CameraApp_init host out = (Return app, out'))
  <-> (exists texts, to_string_list host m = Return texts)
      /\ (exists items, c = PDict items).
Proof.
  intros Hm Hc. rewrite (CameraApp_init_unfold _ _ _ _ _ Hm Hc).
  destruct (to_string_list host m) as [texts|e].
  - destruct c as [| | | | | |items]; split;
      try (intros (app & out' & H); discriminate H);
      try (intros (_ & items & H); discriminate H).
    + intros _. eauto.
    + intros _. eauto.
  - split.
    + intros (app & out' & H). discriminate H.
    + intros ((texts & H) & _). discriminate H.
Qed.

(** X14. A window that [__init__] returns has a dict as camera
    configuration; each worker has the source stored under its side, the
    empty string when the key is missing, is started with the flag on,
    holds no frame and has emitted nothing; and the dropdown shows the
    converted labels, the first one current. *)
Theorem init_result (out out' : list string) (app : CameraApp) :
  CameraApp_init host out = (Return app, out') ->
  (exists items,
     cameras_config app = PDict items
     /\ url (left_thread app) = default (PStr "") (dict_lookup "left" items)
     /\ url (right_thread app) = default (PStr "") (dict_lookup "right" items))
  /\ (forall s, pos (thread app s) = Started /\ running (thread app s) = true
                /\ raw_frame (thread app s) = None /\ emitted (thread app s) = []
                /\ cap (thread app s) = NoCapture)
  /\ to_string_list host (material_types app) = Return (items (dropdown app))
  /\ currentIndex (dropdown app) = 0.
Proof.
  destruct (load_material_types_returns host "config/materials.json" out)
    as (m & out1 & Hm).
  destruct (load_camera_config_returns host "config/cameras.json" out1)
    as (c & out2 & Hc).
  rewrite (CameraApp_init_unfold _ _ _ _ _ Hm Hc).
  destruct (to_string_list host m) as [texts|e] eqn:Htexts; [|discriminate].
  destruct c as [| | | | | |items]; try discriminate.
  intros H. injection H as <- <-. simpl.
  split; [exists items; repeat split|].
  split; [intros [|]; repeat split|].
  split; [exact Htexts | reflexivity].
Qed.

(** X15. A camera configuration that decodes to a value that is not a
    dict makes [__init__] raise AttributeError, the message naming the
    type of the value, once the dropdown is filled; nothing is printed
    for it. *)
Theorem init_raises_attribute_error
    (out out1 : list string) (m data : pyval) (texts : list string) :
  load_material_types host "config/materials.json" out = (Return m, out1) ->
  to_string_list host m = Return texts ->
  read_json host "config/cameras.json" = Return data ->
  (forall items, data <> PDict items) ->
  CameraApp_init host out =
  (Raise {| exc_type := AttributeError;
            exc_msg := "'" +:+ type_name data +:+ "' object has no attribute 'get'" |},
   out1).
Proof.
  intros Hm Htexts Hread Hshape.
  assert (load_camera_config host "config/cameras.json" out1 = (Return data, out1)) as Hc.
  { now rewrite load_camera_config_unfold, Hread. }
  rewrite (CameraApp_init_unfold _ _ _ _ _ Hm Hc), Htexts.
  destruct data as [| | | | | |items]; try reflexivity. now destruct (Hshape items).
Qed.

End Start.

Lemma load_material_types_reads_key_witness :
  load_material_types (host_of_files [("config/materials.json", "{}")])
    "config/materials.json" [] = (Return (PList []), []).
Proof.
  exact (load_material_types_reads_key
           (host_of_files [("config/materials.json", "{}")])
           "config/materials.json" [] [] eq_refl).
Defined.

Lemma load_material_types_rejects_non_dict_witness :
  load_material_types (host_of_files [("config/materials.json", "null")])
    "config/materials.json" [] =
  (Return (PList [PStr "unknown"]),
   ["Error loading material types: 'NoneType' object has no attribute 'get'"]).
Proof.
  apply (load_material_types_rejects_non_dict
           (host_of_files [("config/materials.json", "null")])
           "config/materials.json" [] PNone eq_refl).
  intros items H. discriminate H.
Defined.

Lemma init_returns_iff_witness :
  exists app out',
    CameraApp_init
      (host_of_files [("config/materials.json", "{}"); ("config/cameras.json", "{}")])
      [] = (Return app, out').
Proof.
  apply (init_returns_iff
           (host_of_files [("config/materials.json", "{}"); ("config/cameras.json", "{}")])
           [] [] [] (PList []) (PDict []) eq_refl eq_refl).
  split; [exists []; reflexivity | exists []; reflexivity].
Defined.

Lemma init_result_witness :
  url (left_thread
         {| material_types := PList []; cameras_config := PDict [];
            dropdown := {| items := []; currentIndex := 0 |};
            left_thread := start (VideoThread_init (PStr ""));
            right_thread := start (VideoThread_init (PStr "")) |}) = PStr "".
Proof.
  destruct (init_result
              (host_of_files [("config/materials.json", "{}");
                              ("config/cameras.json", "{}")])
              [] [] _ eq_refl) as ((items & Hcfg & Hleft & _) & _).
  simpl in Hcfg. injection Hcfg as <-. exact Hleft.
Defined.

Lemma init_raises_attribute_error_witness :
  CameraApp_init
    (host_of_files [("config/materials.json", "{}"); ("config/cameras.json", "null")])
    [] =
  (Raise {| exc_type := AttributeError;
            exc_msg := "'NoneType' object has no attribute 'get'" |}, []).
Proof.
  apply (init_raises_attribute_error
           (host_of_files [("config/materials.json", "{}");
                           ("config/cameras.json", "null")])
           [] [] (PList []) PNone [] eq_refl eq_refl eq_refl).
  intros items H. discriminate H.
Defined.

(* ===================================================================== *)
(** * Further properties of the capture controller *)
(* ===================================================================== *)

(** X16. The calls of a capture action come in one order: first the
    request for the date folder, made even when no worker holds a frame,
    then the [imwrite] calls, then the message box, nothing after it. *)
Theorem capture_effect_order (files : Files) (now1 now2 : datetime) (self : CameraApp) :
  let dir := "results/" +:+ strftime "%d_%m_%Y" now2 in
  let tr := capture_trace files now1 now2 self in
  tr = Makedirs dir (makedirs files dir)
       :: map (fun c => Imwrite (fst c) (snd c) (imwrite files (fst c) (snd c)))
              (issued tr)
       ++ map Exec (shown tr).
Proof.
  intros dir tr. subst dir tr.
  capture_cases files now1 now2 self; cbn [fst snd issued shown map app]; congruence.
Qed.


(** X18. Two capture actions with the same timestamp string, the same
    date folder and the same label name the same file for a side: when
    the side holds a frame in both, both actions return and both
    [imwrite] calls for the side return [True], the second action
    replaces the image the first one wrote. *)
Theorem same_second_capture_overwrites (files1 files2 : Files)
    (a1 a2 b1 b2 : datetime) (app1 app2 : CameraApp) (disk : gmap string Frame)
    (s : side) (img1 img2 : Frame) :
  strftime "%Y%m%d_%H%M%S" a1 = strftime "%Y%m%d_%H%M%S" b1 ->
  strftime "%d_%m_%Y" a2 = strftime "%d_%m_%Y" b2 ->
  currentText (dropdown app1) = currentText (dropdown app2) ->
  raw_frame (thread app1 s) = Some img1 ->
  raw_frame (thread app2 s) = Some img2 ->
  let path := save_path (strftime "%d_%m_%Y" a2) (currentText (dropdown app1)) s
                (strftime "%Y%m%d_%H%M%S" a1) in
  capture_outcome files1 a1 a2 app1 = Return tt -> imwrite files1 path img1 = Return true ->
  capture_outcome files2 b1 b2 app2 = Return tt -> imwrite files2 path img2 = Return true ->
  disk_after (capture_trace files1 a1 a2 app1) disk !! path = Some img1
  /\ disk_after (capture_trace files2 b1 b2 app2)
       (disk_after (capture_trace files1 a1 a2 app1) disk) !! path = Some img2.
Proof.
  intros Hts Hfolder Hlabel H1 H2 path Hret1 Hok1 Hret2 Hok2. subst path. split.
  - apply disk_after_capture. apply written_iff.
    split; [now apply issued_returned | assumption].
  - revert Hok2. rewrite Hts, Hfolder, Hlabel. intros Hok2.
    apply disk_after_capture. apply written_iff.
    split; [now apply issued_returned | assumption].
Qed.

Lemma same_second_capture_overwrites_witness :
  disk_after (capture_trace all_fine noon noon
                (sample_app "wood" (Some [[(9%N, 9%N, 9%N)]]) None))
    (disk_after (capture_trace all_fine noon noon
                   (sample_app "wood" (Some sample_frame) None)) ∅)
    !! "results/09_03_2024/wood_left_20240309_120007.png" = Some [[(9%N, 9%N, 9%N)]].
Proof.
  exact (proj2 (same_second_capture_overwrites all_fine all_fine noon noon noon noon
                  (sample_app "wood" (Some sample_frame) None)
                  (sample_app "wood" (Some [[(9%N, 9%N, 9%N)]]) None) ∅ Left
                  sample_frame [[(9%N, 9%N, 9%N)]]
                  eq_refl eq_refl eq_refl eq_refl eq_refl
                  eq_refl eq_refl eq_refl eq_refl)).
Defined.

(** ** Timestamps and folders name their clock reading *)

Lemma app_same_head_tail (a b x y : string) :
  String.length a = String.length b -> a +:+ x = b +:+ y -> a = b /\ x = y.
Proof.
  intros Hlen H. pose proof (app_same_head a b x y Hlen H) as ->.
  split; [reflexivity|]. now apply (inj (String.app b)) in H.
Qed.

Lemma d2_inj (n m : N) :
  (n < 100)%N -> (m < 100)%N -> PyStr.d2 n = PyStr.d2 m -> n = m.
Proof.
  intros Hn Hm H. rewrite <- (d2_value n Hn), <- (d2_value m Hm). now rewrite H.
Qed.

Lemma d4_inj (n m : N) :
  (n < 10000)%N -> (m < 10000)%N -> PyStr.d4 n = PyStr.d4 m -> n = m.
Proof.
  intros Hn Hm H. rewrite <- (d4_value n Hn), <- (d4_value m Hm). now rewrite H.
Qed.

Lemma valid_datetime_bounds (dt : datetime) :
  valid_datetime dt = true ->
  (year dt < 10000 /\ month dt < 100 /\ day dt < 100
   /\ hour dt < 100 /\ minute dt < 100 /\ second dt < 100)%N.
Proof.
  unfold valid_datetime. intros H.
  repeat (apply andb_prop in H as [H ?]).
  repeat match goal with
         | H : (_ <=? _)%N = true |- _ => apply N.leb_le in H
         | H : (_ <? _)%N = true |- _ => apply N.ltb_lt in H
         end.
  lia.
Qed.

(** X19. For clock readings in the range of [datetime], the timestamp
    string names the second: two readings give the same timestamp exactly
    when they agree in year, month, day, hour, minute and second. *)
Theorem timestamp_names_the_second (a b : datetime) :
  valid_datetime a = true -> valid_datetime b = true ->
  strftime "%Y%m%d_%H%M%S" a = strftime "%Y%m%d_%H%M%S" b <-> a = b.
Proof.
  intros Ha Hb. split; [|now intros ->].
  apply valid_datetime_bounds in Ha as (? & ? & ? & ? & ? & ?).
  apply valid_datetime_bounds in Hb as (? & ? & ? & ? & ? & ?).
  rewrite !strftime_timestamp. intros E0.
  apply app_same_head_tail in E0 as [Hy E1]; [|reflexivity].
  apply app_same_head_tail in E1 as [Hm E2]; [|reflexivity].
  apply app_same_head_tail in E2 as [Hd E3]; [|reflexivity].
  apply app_same_head_tail in E3 as [_ E4]; [|reflexivity].
  apply app_same_head_tail in E4 as [Hh E5]; [|reflexivity].
  apply app_same_head_tail in E5 as [Hmi Hs]; [|reflexivity].
  apply d4_inj in Hy; try assumption. apply d2_inj in Hm; try assumption.
  apply d2_inj in Hd; try assumption. apply d2_inj in Hh; try assumption.
  apply d2_inj in Hmi; try assumption. apply d2_inj in Hs; try assumption.
  destruct a, b. simpl in *. congruence.
Qed.

Lemma timestamp_names_the_second_witness :
  strftime "%Y%m%d_%H%M%S" noon = strftime "%Y%m%d_%H%M%S" noon.
Proof.
  exact (proj2 (timestamp_names_the_second noon noon eq_refl eq_refl) eq_refl).
Defined.

(** X20. For clock readings in the range of [datetime], the folder name
    names the day: two readings give the same folder exactly when they
    agree in year, month and day. *)
Theorem folder_names_the_day (a b : datetime) :
  valid_datetime a = true -> valid_datetime b = true ->
  strftime "%d_%m_%Y" a = strftime "%d_%m_%Y" b <-> same_day a b.
Proof.
  intros Ha Hb. split; [|apply same_day_folder].
  apply valid_datetime_bounds in Ha as (? & ? & ? & _).
  apply valid_datetime_bounds in Hb as (? & ? & ? & _).
  rewrite !strftime_folder. intros E0.
  apply app_same_head_tail in E0 as [Hd E1]; [|reflexivity].
  apply app_same_head_tail in E1 as [_ E2]; [|reflexivity].
  apply app_same_head_tail in E2 as [Hm E3]; [|reflexivity].
  apply app_same_head_tail in E3 as [_ Hy]; [|reflexivity].
  apply d4_inj in Hy; try assumption. apply d2_inj in Hm; try assumption.
  apply d2_inj in Hd; try assumption. repeat split; assumption.
Qed.

Lemma folder_names_the_day_witness :
  strftime "%d_%m_%Y" noon = strftime "%d_%m_%Y" later.
Proof.
  apply (proj2 (folder_names_the_day noon later eq_refl eq_refl)). repeat split.
Defined.
